(** * tally_points_by_shape.py: points counted per shape

  A shallow embedding of [tally_points_by_shape.py] and the properties of
  its tally engine, its acquisition steps and its output step.

  - [PyDict]: the insertion-ordered dictionary of Python, as far as the
    program uses it ([dict()], [d.update], the dict comprehension,
    [items()], [keys()], [d[k]]).
  - [Engine]: [tally_points], for any containment predicate.
  - [Geometry]: the containment test [pt.within(poly)] of the geometry
    library on exact coordinates.
  - [Program]: [get_shapes], [get_points] and [main] over an explicit
    outside world, with the trace of what a run prints, computes and
    writes. *)

From Stdlib Require Import ZArith QArith Lia Ascii String.
From stdpp Require Import base decidable list strings pretty.

Local Open Scope Z_scope.

(** ** Python dictionaries *)

Module PyDict.

(** A dictionary is the list of its items in insertion order. *)
Definition dict (K V : Type) : Type := list (K * V).

Section dict_ops.
Context {K V : Type} `{EqDecision K}.

(** [d[k] = v]: an existing key keeps its position and takes the new value,
    a new key goes to the end. *)
Fixpoint setitem (d : dict K V) (k : K) (v : V) : dict K V :=
  match d with
  | [] => [(k, v)]
  | (k', v') :: d' =>
      if decide (k = k') then (k', v) :: d' else (k', v') :: setitem d' k v
  end.

(** [d.update(e)]: the items of [e] are set in [d], in the order of [e]. *)
Definition update (d e : dict K V) : dict K V :=
  foldl (λ acc kv, setitem acc kv.1 kv.2) d e.

(** [d[k]]: [None] stands for the KeyError. *)
Fixpoint getitem (d : dict K V) (k : K) : option V :=
  match d with
  | [] => None
  | (k', v) :: d' => if decide (k = k') then Some v else getitem d' k
  end.

(** [d.keys()] and [d.items()], in iteration order. *)
Definition keys (d : dict K V) : list K := d.*1.
Definition items (d : dict K V) : list (K * V) := d.

(** [{k : v for ...}] over the items the comprehension produces. *)
Definition of_items (l : list (K * V)) : dict K V := update [] l.

(** The invariant of a dictionary: no key occurs twice. *)
Definition wf (d : dict K V) : Prop := NoDup (keys d).

Lemma keys_setitem_fresh d k v :
  k ∉ keys d → setitem d k v = d ++ [(k, v)].
Proof.
  unfold keys. induction d as [|[k' v'] d IH]; simpl; [done|].
  intros Hk. apply not_elem_of_cons in Hk as [Hne Hk].
  rewrite decide_False by done. by rewrite IH.
Qed.

Lemma keys_setitem_present d k v :
  k ∈ keys d → keys (setitem d k v) = keys d.
Proof.
  unfold keys. induction d as [|[k' v'] d IH]; simpl.
  - by intros ?%elem_of_nil.
  - intros Hk. destruct (decide (k = k')) as [->|Hne]; [done|].
    simpl. f_equal. apply IH.
    apply elem_of_cons in Hk as [?|?]; [done|done].
Qed.

Lemma wf_setitem d k v : wf d → wf (setitem d k v).
Proof.
  unfold wf. intros Hd. destruct (decide (k ∈ keys d)) as [Hin|Hnin].
  - by rewrite keys_setitem_present.
  - rewrite keys_setitem_fresh by done. unfold keys in *.
    rewrite fmap_app. simpl. apply NoDup_app. split_and!; [done| |].
    + intros x Hx ->%list_elem_of_singleton. done.
    + apply NoDup_singleton.
Qed.

Lemma wf_update d e : wf d → wf (update d e).
Proof.
  unfold update. revert d. induction e as [|[k v] e IH]; simpl; [done|].
  intros d Hd. apply IH. by apply wf_setitem.
Qed.

Lemma wf_of_items l : wf (of_items l).
Proof. apply wf_update. unfold wf, keys. simpl. apply NoDup_nil_2. Qed.

(** Every value of [setitem d k v] is [v] or a value of [d]. *)
Lemma elem_of_setitem d k v kv :
  kv ∈ setitem d k v → kv.2 = v ∨ kv ∈ d.
Proof.
  induction d as [|[k' v'] d IH]; simpl.
  - intros ->%list_elem_of_singleton. by left.
  - destruct (decide (k = k')) as [->|Hne].
    + intros [->|?]%elem_of_cons; [by left|right; by apply elem_of_cons; right].
    + intros [->|Hin]%elem_of_cons; [right; apply elem_of_cons; by left|].
      destruct (IH Hin) as [?|?]; [by left|right; apply elem_of_cons; by right].
Qed.

Lemma getitem_elem_of d k v : getitem d k = Some v → (k, v) ∈ d.
Proof.
  induction d as [|[k' v'] d IH]; simpl; [done|].
  destruct (decide (k = k')) as [->|Hne].
  - intros [= ->]. apply elem_of_cons. by left.
  - intros ?. apply elem_of_cons. right. by apply IH.
Qed.

Lemma elem_of_getitem d k v : wf d → (k, v) ∈ d → getitem d k = Some v.
Proof.
  unfold wf, keys. induction d as [|[k' v'] d IH]; simpl.
  - by intros _ ?%elem_of_nil.
  - intros [Hk' Hd]%NoDup_cons [[= -> ->]|Hin]%elem_of_cons.
    + by rewrite decide_True.
    + rewrite decide_False; [by apply IH|].
      intros ->. apply Hk'. apply list_elem_of_fmap. by exists (k', v).
Qed.
End dict_ops.

End PyDict.


(** ** The tally engine *)

Module Engine.
Import PyDict.

Section engine.
Context {K Pt Poly : Type} `{EqDecision K}.

(** [pt.within(poly)], the containment test of the geometry library. *)
Variable within : Pt → Poly → bool.

(** The inner loop of [tally_points]:
    [count = 0; for pt in points: if pt.within(poly): count += 1]. *)
Definition count_points (poly : Poly) (points : list Pt) : Z :=
  foldl (λ count pt, if within pt poly then count + 1 else count) 0 points.

(** [tally_points(polygons, points)]: [d = dict()], then for every item of
    [polygons.items()] the count of the inner loop goes into [d] by
    [d.update({name: count})]. *)
Definition tally_points (polygons : dict K Poly) (points : list Pt) : dict K Z :=
  foldl (λ d item, update d [(item.1, count_points item.2 points)])
        [] (items polygons).

(** The outer loop started from any dictionary [d0]. *)
Definition tally_from (d0 : dict K Z) (polygons : dict K Poly) (points : list Pt)
  : dict K Z :=
  foldl (λ d item, update d [(item.1, count_points item.2 points)]) d0 polygons.

(** The sum of the counts of a tally result. *)
Definition total (d : dict K Z) : Z := foldr (λ kv s, kv.2 + s) 0 d.

(** *** The inner loop *)

Lemma count_loop_acc poly points acc :
  foldl (λ count pt, if within pt poly then count + 1 else count) acc points
  = acc + Z.of_nat (length (filter (λ pt, within pt poly = true) points)).
Proof.
  revert acc. induction points as [|pt points IH]; intros acc; simpl; [lia|].
  rewrite IH. rewrite filter_cons. destruct (within pt poly) eqn:Hw.
  - rewrite decide_True by done. simpl. lia.
  - rewrite decide_False by done. lia.
Qed.

Lemma count_points_filter poly points :
  count_points poly points
  = Z.of_nat (length (filter (λ pt, within pt poly = true) points)).
Proof. unfold count_points. rewrite count_loop_acc. lia. Qed.

Lemma count_points_bounds poly points :
  0 ≤ count_points poly points ≤ Z.of_nat (length points).
Proof.
  rewrite count_points_filter.
  pose proof (length_filter (λ pt, within pt poly = true) points). lia.
Qed.

Lemma count_points_nil poly : count_points poly [] = 0.
Proof. reflexivity. Qed.

Lemma count_points_cons poly pt points :
  count_points poly (pt :: points)
  = (if within pt poly then 1 else 0) + count_points poly points.
Proof.
  rewrite !count_points_filter, filter_cons.
  destruct (within pt poly); [rewrite decide_True by done|rewrite decide_False by done];
    simpl; lia.
Qed.

Lemma count_points_perm poly points1 points2 :
  points1 ≡ₚ points2 → count_points poly points1 = count_points poly points2.
Proof. intros Hp. rewrite !count_points_filter. by rewrite Hp. Qed.

(** *** The outer loop *)

Lemma tally_from_fresh d0 polygons points :
  NoDup (keys d0 ++ keys polygons) →
  tally_from d0 polygons points
  = d0 ++ ((λ item, (item.1, count_points item.2 points)) <$> polygons).
Proof.
  unfold tally_from, keys. revert d0.
  induction polygons as [|[name poly] polygons IH]; intros d0 Hnd; simpl.
  - by rewrite app_nil_r.
  - change (update d0 [(name, count_points poly points)])
      with (setitem d0 name (count_points poly points)).
    rewrite keys_setitem_fresh.
    + rewrite IH.
      * by rewrite <- app_assoc.
      * rewrite fmap_app. simpl. rewrite <- app_assoc. done.
    + apply NoDup_app in Hnd as (_ & Hd & _). intros Hin.
      apply (Hd name Hin). apply elem_of_cons. by left.
Qed.

(** On a dictionary the engine is a map over the items. *)
Lemma tally_points_map polygons points :
  wf polygons →
  tally_points polygons points
  = (λ item, (item.1, count_points item.2 points)) <$> polygons.
Proof.
  intros Hwf. unfold tally_points, items.
  change (foldl _ [] polygons) with (tally_from [] polygons points).
  by rewrite tally_from_fresh.
Qed.

Lemma tally_from_values d0 polygons points (P : Z → Prop) :
  (∀ poly, P (count_points poly points)) →
  Forall (λ kv, P kv.2) d0 →
  Forall (λ kv, P kv.2) (tally_from d0 polygons points).
Proof.
  intros HP. unfold tally_from. revert d0.
  induction polygons as [|[name poly] polygons IH]; intros d0 Hd0; simpl; [done|].
  apply IH. unfold update. simpl. apply Forall_forall. intros kv Hkv.
  apply elem_of_setitem in Hkv as [->|Hin]; [apply HP|].
  by eapply Forall_forall in Hd0.
Qed.

Lemma tally_points_values polygons points (P : Z → Prop) :
  (∀ poly, P (count_points poly points)) →
  Forall (λ kv, P kv.2) (tally_points polygons points).
Proof. intros HP. by apply (tally_from_values [] polygons points P). Qed.

Lemma tally_from_wf d0 polygons points :
  wf d0 → wf (tally_from d0 polygons points).
Proof.
  unfold tally_from. revert d0.
  induction polygons as [|[name poly] polygons IH]; intros d0 Hd0; simpl; [done|].
  apply IH. unfold update. simpl. by apply wf_setitem.
Qed.

Lemma tally_points_wf polygons points : wf (tally_points polygons points).
Proof. apply (tally_from_wf [] polygons points). apply NoDup_nil_2. Qed.

Lemma tally_from_perm_points d0 polygons points1 points2 :
  points1 ≡ₚ points2 →
  tally_from d0 polygons points1 = tally_from d0 polygons points2.
Proof.
  intros Hp. unfold tally_from. revert d0.
  induction polygons as [|[name poly] polygons IH]; intros d0; simpl; [done|].
  by rewrite (count_points_perm poly points1 points2 Hp), IH.
Qed.

Lemma tally_points_getitem polygons points name poly :
  wf polygons → (name, poly) ∈ polygons →
  getitem (tally_points polygons points) name = Some (count_points poly points).
Proof.
  intros Hwf Hin. apply elem_of_getitem; [apply tally_points_wf|].
  rewrite tally_points_map by done.
  apply list_elem_of_fmap. by exists (name, poly).
Qed.

Lemma tally_points_keys polygons points :
  wf polygons → keys (tally_points polygons points) = keys polygons.
Proof.
  intros Hwf. rewrite tally_points_map by done. unfold keys.
  rewrite <- list_fmap_compose. by apply list_fmap_ext.
Qed.

End engine.
End Engine.


(** ** The containment test of the geometry library *)

Module Geometry.

(** The program builds [Point(x, y)] and [Polygon(shell)] objects of the
    geometry library (shapely) and asks [pt.within(poly)].  The library is
    not part of the repository; what follows is its documented behaviour on
    exact coordinates: a polygon is the region bounded by its exterior ring,
    a point is located in the interior, on the boundary or in the exterior
    of that region, and [within] holds for the points of the interior only
    (a point of the boundary touches the polygon, it is not within it). *)

Record Point : Type := mkPoint { x : Q; y : Q }.

Record Polygon : Type := mkPolygon { exterior : list (Q * Q) }.

Inductive Location : Type := INTERIOR | BOUNDARY | EXTERIOR.

Definition Qltb (a b : Q) : bool := negb (Qle_bool b a).

Definition coord_eqb (a b : Q * Q) : bool :=
  Qeq_bool a.1 b.1 && Qeq_bool a.2 b.2.

(** The ring of a polygon is closed: the first vertex is repeated at the end
    unless the shell already ends with it. *)
Definition closed_ring (shell : list (Q * Q)) : list (Q * Q) :=
  match shell, last shell with
  | v0 :: _, Some vn => if coord_eqb v0 vn then shell else shell ++ [v0]
  | _, _ => shell
  end.

(** The edges of a polygon: the pairs of consecutive vertices of its ring. *)
Definition edges (poly : Polygon) : list ((Q * Q) * (Q * Q)) :=
  let ring := closed_ring (exterior poly) in zip ring (tail ring).

(** Twice the signed area of the triangle [a, b, p]: positive when [p] is to
    the left of the line from [a] to [b], zero when the three are collinear. *)
Definition orientation (a b : Q * Q) (p : Point) : Q :=
  ((b.1 - a.1) * (y p - a.2) - (b.2 - a.2) * (x p - a.1))%Q.

(** [v] is between [a] and [b], in either order. *)
Definition between (a b v : Q) : bool :=
  (Qle_bool a v && Qle_bool v b) || (Qle_bool b v && Qle_bool v a).

(** [p] lies on the segment from [a] to [b], end points included: collinear
    with them and inside their bounding box. *)
Definition on_segment (p : Point) (e : (Q * Q) * (Q * Q)) : bool :=
  let '(a, b) := e in
  Qeq_bool (orientation a b p) 0
  && between a.1 b.1 (x p) && between a.2 b.2 (y p).

(** The ray from [p] in direction +x crosses the edge from [a] to [b]: the
    edge spans the height of [p] (upper end point excluded) and [p] is
    strictly to the left of it. *)
Definition crosses (p : Point) (e : (Q * Q) * (Q * Q)) : bool :=
  let '(a, b) := e in
  if Qltb (y p) a.2 && Qle_bool b.2 (y p) then Qltb (orientation a b p) 0
  else if Qltb (y p) b.2 && Qle_bool a.2 (y p) then Qltb 0 (orientation a b p)
  else false.

Definition on_boundary (p : Point) (poly : Polygon) : bool :=
  existsb (on_segment p) (edges poly).

Definition crossings (p : Point) (poly : Polygon) : nat :=
  length (filter (λ e, crosses p e = true) (edges poly)).

Definition locate (p : Point) (poly : Polygon) : Location :=
  if on_boundary p poly then BOUNDARY
  else if Nat.odd (crossings p poly) then INTERIOR
  else EXTERIOR.

(** [pt.within(poly)]: the point is in the interior of the polygon. *)
Definition within (pt : Point) (poly : Polygon) : bool :=
  match locate pt poly with INTERIOR => true | _ => false end.

(** Containment as the specification words it: strictly inside the region,
    or exactly on its boundary. *)
Definition inside_or_on_boundary (pt : Point) (poly : Polygon) : bool :=
  match locate pt poly with EXTERIOR => false | _ => true end.

Definition pt (a b : Z) : Point := mkPoint (inject_Z a) (inject_Z b).
Definition vx (a b : Z) : Q * Q := (inject_Z a, inject_Z b).

(** Shapes of the scenarios. *)
Definition square : Polygon := mkPolygon [vx 0 0; vx 0 2; vx 2 2; vx 2 0].

Definition rectangle (x0 y0 x1 y1 : Z) : Polygon :=
  mkPolygon [vx x0 y0; vx x0 y1; vx x1 y1; vx x1 y0].

Definition diamond : Polygon := mkPolygon [vx 0 (-1); vx 1 0; vx 0 1; vx (-1) 0].

(** The code's test is the specification's containment less the boundary. *)
Lemma within_excludes_boundary (p : Point) (poly : Polygon) :
  within p poly = inside_or_on_boundary p poly && negb (on_boundary p poly).
Proof.
  unfold within, inside_or_on_boundary, locate.
  destruct (on_boundary p poly); [done|].
  by destruct (Nat.odd (crossings p poly)).
Qed.

Lemma boundary_point_not_within (p : Point) (poly : Polygon) :
  on_boundary p poly = true →
  within p poly = false ∧ inside_or_on_boundary p poly = true.
Proof.
  intros Hb. unfold within, inside_or_on_boundary, locate. by rewrite Hb.
Qed.

Lemma within_inside_or_on_boundary (p : Point) (poly : Polygon) :
  within p poly = true → inside_or_on_boundary p poly = true.
Proof. rewrite within_excludes_boundary. by intros [? _]%andb_prop. Qed.

Example locate_square :
  map (λ p, locate p square) [pt 1 1; pt 3 3; pt 0 1; pt 0 0; pt 2 1; pt 1 2; pt (-1) 0; pt 1 0; pt 3 0; pt 3 2; pt (-1) 2]
  = [INTERIOR; EXTERIOR; BOUNDARY; BOUNDARY; BOUNDARY; BOUNDARY; EXTERIOR; BOUNDARY; EXTERIOR; EXTERIOR; EXTERIOR].
Proof. vm_compute. reflexivity. Qed.

(** A ray through a vertex is counted once. *)
Example locate_diamond :
  map (λ p, locate p diamond) [pt 0 0; pt (-2) 0; pt 2 0; pt 1 0; pt 0 1; pt 1 1]
  = [INTERIOR; EXTERIOR; EXTERIOR; BOUNDARY; BOUNDARY; EXTERIOR].
Proof. vm_compute. reflexivity. Qed.

(** A shell that ends with its first vertex describes the same polygon. *)
Example locate_closed_shell :
  map (λ p, locate p (mkPolygon [vx 0 0; vx 0 2; vx 2 2; vx 2 0; vx 0 0]))
      [pt 1 1; pt 3 3; pt 0 1; pt 0 0]
  = [INTERIOR; EXTERIOR; BOUNDARY; BOUNDARY].
Proof. vm_compute. reflexivity. Qed.

End Geometry.


(** ** The program: acquisition, tally, output *)

Module Program.
Import PyDict Geometry.

(** A feature of the shape file: [properties.id] and
    [geometry.coordinates], the list of the rings of the shape. *)
Record Feature : Type := mkFeature {
  properties_id : string;
  geometry_coordinates : list (list (Q * Q))
}.

(** What a run finds outside the program. *)
Record World : Type := mkWorld {
  (** [d['features']] of the JSON file at a path next to the script; [None]
      when opening or parsing the file raises. *)
  shape_files : string → option (list Feature);
  (** [os.isatty(0)]: no file is attached to the standard input. *)
  stdin_isatty : bool;
  (** the rows (lat, lon) of the table read from the standard input; [None]
      when reading or parsing it, naming its two columns or building a
      point from a row raises. *)
  stdin_rows : option (list (Q * Q))
}.

(** What a run does that can be observed. *)
Inductive event : Type :=
  | Print (line : string)
  | CallTally
  | WriteRow (fields : list string).

Inductive result (A : Type) : Type :=
  | Ok (a : A)
  | Raise (exn : string).
Arguments Ok {A} a.
Arguments Raise {A} exn.

(** A computation: its events so far and its value or exception. *)
Definition M (A : Type) : Type := list event * result A.

#[global] Instance M_ret : MRet M := λ A a, ([], Ok a).
#[global] Instance M_bind : MBind M := λ A B f m,
  match m.2 with
  | Ok a => (m.1 ++ (f a).1, (f a).2)
  | Raise e => (m.1, Raise e)
  end.

Definition print (line : string) : M unit := ([Print line], Ok ()).
Definition raise {A : Type} (exn : string) : M A := ([], Raise exn).
Definition emit (e : event) : M unit := ([e], Ok ()).

(** [for x in l: body(x)] *)
Fixpoint for_each {A : Type} (l : list A) (body : A → M unit) : M unit :=
  match l with
  | [] => mret ()
  | a :: l' => _ ← body a; for_each l' body
  end.

(** [Polygon(shell)]: a shell of one or two coordinates is refused with a
    ValueError; an empty shell gives the empty polygon. *)
Definition Polygon_new (shell : list (Q * Q)) : option Polygon :=
  match shell with
  | [_] | [_; _] => None
  | _ => Some (mkPolygon shell)
  end.

(** One item of the dict comprehension of [get_shapes]:
    [i['properties']['id'] : Polygon(i['geometry']['coordinates'][0])]. *)
Definition feature_item (i : Feature) : option (string * Polygon) :=
  shell ← head (geometry_coordinates i);
  poly ← Polygon_new shell;
  Some (properties_id i, poly).

(** The body of the [try] of [get_shapes]; [None] when it raises. *)
Definition load_polygons (w : World) (relative_path_and_filename : string)
  : option (dict string Polygon) :=
  features ← shape_files w relative_path_and_filename;
  of_items <$> mapM feature_item features.

Definition get_shapes (w : World) (relative_path_and_filename : string)
  : M (dict string Polygon * Z) :=
  match load_polygons w relative_path_and_filename with
  | Some polygons => mret (polygons, 1)
  | None => _ ← print "I/O error: no shape data acquired."; mret ([], -1)
  end.

(** The first component of the pair [get_points] returns is the list of
    points or the integer it was initialised with. *)
Inductive points_value : Type :=
  | PyInt (n : Z)
  | PyList (points : list Point).

(** [[Point(i, j) for (i, j) in zip(df['lon'], df['lat'])]] *)
Definition points_of_rows (rows : list (Q * Q)) : list Point :=
  (λ row, mkPoint row.2 row.1) <$> rows.

Definition get_points (w : World) : M (points_value * Z) :=
  let points := PyInt (-1) in
  if stdin_isatty w then
    _ ← print "I/O error: no input file name provided.";
    mret (points, -1)
  else
    match stdin_rows w with
    | Some rows => mret (PyList (points_of_rows rows), 1)
    | None => _ ← print "I/O error: no point data acquired."; mret (points, -1)
    end.

(** The call [tally_points(polys, points)] of [main]: the inner loop iterates
    over [points], which raises a TypeError on an integer. *)
Definition call_tally_points (polys : dict string Polygon) (points : points_value)
  : M (dict string Z) :=
  _ ← emit CallTally;
  match points with
  | PyList l => mret (Engine.tally_points within polys l)
  | PyInt _ =>
      match polys with
      | [] => mret []
      | _ :: _ => raise "TypeError"
      end
  end.

(** [str(count)] *)
Definition str_int (n : Z) : string := pretty n.

(** [for key in tally.keys(): tsv_writer.writerow((key, tally[key]))] *)
Definition write_rows (tally : dict string Z) : M unit :=
  for_each (keys tally) (λ key,
    match getitem tally key with
    | Some count => emit (WriteRow [key; str_int count])
    | None => raise "KeyError"
    end).

Definition main (w : World) : M unit :=
  let relative_path_and_filename := "example\shapes.json" in
  '(polys, polys_flag) ← get_shapes w relative_path_and_filename;
  '(points, points_flag) ← get_points w;
  if bool_decide (points_flag = 1) && bool_decide (polys_flag = 1) then
    tally ← call_tally_points polys points;
    write_rows tally
  else
    print "Aborting.".

(** *** The output stream *)

Definition tab : ascii := ascii_of_nat 9.
Definition newline : ascii := ascii_of_nat 10.
Definition double_quote : ascii := ascii_of_nat 34.

(** The settings of a [csv.writer]. *)
Record csv_writer : Type := mk_csv_writer {
  delimiter : ascii;
  lineterminator : string;
  quotechar : ascii
}.

(** [csv.writer(sys.stdout, delimiter='\t', lineterminator='\t')] *)
Definition tsv_writer : csv_writer :=
  {| delimiter := tab; lineterminator := String tab EmptyString;
     quotechar := double_quote |}.

(** A field is quoted when it holds the delimiter, the quote character or a
    character of the line terminator (minimal quoting, the default). *)
Definition special (wr : csv_writer) (c : ascii) : bool :=
  bool_decide (c = delimiter wr) || bool_decide (c = quotechar wr)
  || bool_decide (c ∈ list_ascii_of_string (lineterminator wr)).

Definition csv_field (wr : csv_writer) (field : string) : string :=
  let chars := list_ascii_of_string field in
  if existsb (special wr) chars then
    let doubled := chars ≫= λ c,
      if bool_decide (c = quotechar wr) then [c; c] else [c] in
    String (quotechar wr) (string_of_list_ascii (doubled ++ [quotechar wr]))
  else field.

(** [writer.writerow(fields)]: the fields, the delimiter between them, then
    the line terminator. *)
Definition writerow (wr : csv_writer) (fields : list string) : string :=
  String.concat (String (delimiter wr) EmptyString) (csv_field wr <$> fields)
  +:+ lineterminator wr.

(** What an event puts on the standard output. *)
Definition stdout_event (e : event) : string :=
  match e with
  | Print line => line +:+ String newline EmptyString
  | CallTally => EmptyString
  | WriteRow fields => writerow tsv_writer fields
  end.

Definition stdout (trace : list event) : string :=
  foldr (λ e out, stdout_event e +:+ out) EmptyString trace.

(** The rows a run wrote, the lines it printed and its calls of the engine. *)
Definition rows_written (trace : list event) : list (list string) :=
  trace ≫= λ e, match e with WriteRow fields => [fields] | _ => [] end.
Definition lines_printed (trace : list event) : list string :=
  trace ≫= λ e, match e with Print line => [line] | _ => [] end.
Definition tally_calls (trace : list event) : nat :=
  length (trace ≫= λ e, match e with CallTally => [()] | _ => [] end).

End Program.


(** ** Properties of the tally engine *)

Section tally_properties.
Import PyDict Engine.
Context {K Pt Poly : Type} `{EqDecision K}.
Variable within : Pt → Poly → bool.

(** C4: the tally result has exactly one (name, count) entry per entry of
    the shape set, whatever the count (zero included), and it iterates in
    the key order of the shape set. *)
Theorem tally_points_one_entry_per_shape
    (polygons : dict K Poly) (points : list Pt) :
  wf polygons →
  keys (tally_points within polygons points) = keys polygons
  ∧ wf (tally_points within polygons points)
  ∧ length (tally_points within polygons points) = length polygons
  ∧ tally_points within polygons points
    = (λ item, (item.1, count_points within item.2 points)) <$> polygons
  ∧ ∀ name poly, (name, poly) ∈ polygons →
      getitem (tally_points within polygons points) name
      = Some (count_points within poly points).
Proof.
  intros Hwf. split_and!.
  - by apply tally_points_keys.
  - apply tally_points_wf.
  - rewrite tally_points_map by done. apply length_fmap.
  - by apply tally_points_map.
  - intros name poly Hin. by apply tally_points_getitem.
Qed.

(** C5: every count of the tally result is an integer between 0 and the
    number of points, inclusive. *)
Theorem tally_points_count_bounds (polygons : dict K Poly) (points : list Pt) :
  Forall (λ kv, 0 ≤ kv.2 ≤ Z.of_nat (length points))
         (tally_points within polygons points)
  ∧ ∀ name count,
      getitem (tally_points within polygons points) name = Some count →
      0 ≤ count ≤ Z.of_nat (length points).
Proof.
  assert (Hall : Forall (λ kv, 0 ≤ kv.2 ≤ Z.of_nat (length points))
                        (tally_points within polygons points)).
  { apply (tally_points_values within polygons points
             (λ count, 0 ≤ count ≤ Z.of_nat (length points))).
    intros poly. apply count_points_bounds. }
  split; [done|]. intros name count Hget.
  apply getitem_elem_of in Hget.
  by apply (proj1 (Forall_forall _ _) Hall (name, count)).
Qed.

(** C6: the engine is a total function; on an empty shape set it returns
    the empty tally result for every point set, and on an empty point set
    every count is 0, with one entry per shape. *)
Theorem tally_points_empty_inputs :
  (∀ points : list Pt, tally_points within (K:=K) [] points = [])
  ∧ (∀ polygons : dict K Poly,
       Forall (λ kv, kv.2 = 0) (tally_points within polygons []))
  ∧ (∀ polygons : dict K Poly, wf polygons →
       tally_points within polygons [] = (λ item, (item.1, 0)) <$> polygons).
Proof.
  split_and!.
  - done.
  - intros polygons.
    by apply (tally_points_values within polygons [] (λ count, count = 0)).
  - intros polygons Hwf. by rewrite tally_points_map.
Qed.

(** C7: a permutation of the point set changes no count, and a shape set
    with the same entries in another key order gives the same (name, count)
    pairs, each result in the key order of its own shape set. *)
Theorem tally_points_order_independent
    (polygons1 polygons2 : dict K Poly) (points1 points2 : list Pt) :
  wf polygons1 → polygons1 ≡ₚ polygons2 → points1 ≡ₚ points2 →
  tally_points within polygons1 points1 = tally_points within polygons1 points2
  ∧ tally_points within polygons1 points1 ≡ₚ tally_points within polygons2 points1
  ∧ keys (tally_points within polygons1 points1) = keys polygons1
  ∧ keys (tally_points within polygons2 points1) = keys polygons2.
Proof.
  intros Hwf1 Hpolys Hpoints.
  assert (Hwf2 : wf polygons2).
  { unfold wf, keys in *. by rewrite <- Hpolys. }
  split_and!.
  - apply (tally_from_perm_points within [] polygons1 _ _ Hpoints).
  - rewrite !tally_points_map by done. by rewrite Hpolys.
  - by apply tally_points_keys.
  - by apply tally_points_keys.
Qed.

End tally_properties.


(** ** The engine with the containment test of the program *)

Section scenarios.
Import PyDict Engine Geometry.

(** The engine as the program runs it. *)
Definition tally (polygons : dict string Polygon) (points : list Point)
  : dict string Z :=
  tally_points within polygons points.

Definition square_shapes : dict string Polygon := [("square", square)].

Definition square_points : list Point := [pt 1 1; pt 3 3; pt 0 1; pt 0 0].

(** Two unit squares that share the edge from (1,0) to (1,1). *)
Definition adjacent_shapes : dict string Polygon :=
  [("A", rectangle 0 0 1 1); ("B", rectangle 1 0 2 1)].

(** The middle of the shared edge. *)
Definition shared_edge_point : Point := mkPoint 1 (1 # 2).

(** Two squares that overlap in the unit square around (3/2, 1/2). *)
Definition overlapping_shapes : dict string Polygon :=
  [("A", rectangle 0 0 2 1); ("B", rectangle 1 0 3 1)].

Definition disjoint_shapes : dict string Polygon :=
  [("A", rectangle 0 0 1 1); ("B", rectangle 10 10 11 11)].

(** The scenario of two disjoint shapes: the point between them counts
    nowhere. *)
Example tally_disjoint_shapes :
  tally disjoint_shapes
        [mkPoint (1 # 2) (1 # 2); mkPoint (21 # 2) (21 # 2); mkPoint 5 5]
  = [("A", 1); ("B", 1)].
Proof. vm_compute. reflexivity. Qed.

(** A point in the overlap of two shapes counts for both, so the counts can
    add up to more than the number of points. *)
Lemma total_can_exceed_points :
  tally overlapping_shapes [mkPoint (3 # 2) (1 # 2)] = [("A", 1); ("B", 1)]
  ∧ total (tally overlapping_shapes [mkPoint (3 # 2) (1 # 2)]) = 2.
Proof. split; vm_compute; reflexivity. Qed.

(** A point on the boundary of a polygon never adds to its count. *)
Lemma boundary_point_adds_nothing (p : Point) (poly : Polygon) (points : list Point) :
  on_boundary p poly = true →
  count_points within poly (p :: points) = count_points within poly points.
Proof.
  intros Hb. rewrite count_points_cons.
  destruct (boundary_point_not_within p poly Hb) as [-> _]. lia.
Qed.

(** C1: a point exactly on an edge of a polygon is on its boundary, the
    containment test of the engine answers false for it, and tallying the
    polygon over a point set that holds the point leaves the count at 0. *)
Theorem edge_point_not_counted :
  on_boundary (pt 0 1) square = true
  ∧ inside_or_on_boundary (pt 0 1) square = true
  ∧ within (pt 0 1) square = false
  ∧ tally square_shapes [pt 0 1] = [("square", 0)].
Proof. split_and!; vm_compute; reflexivity. Qed.

(** C2: on the shape set with the square and the four points (inside,
    outside, on an edge, on a vertex) the engine returns the count 1: only
    the interior point is counted. *)
Theorem tally_square_scenario :
  tally square_shapes square_points = [("square", 1)]
  ∧ map (λ p, within p square) square_points = [true; false; false; false]
  ∧ map (λ p, inside_or_on_boundary p square) square_points
    = [true; false; true; true].
Proof. split_and!; vm_compute; reflexivity. Qed.

(** C3: a point exactly on the edge two adjacent polygons share is on the
    boundary of both and is counted in the tally of neither. *)
Theorem shared_edge_point_not_counted :
  on_boundary shared_edge_point (rectangle 0 0 1 1) = true
  ∧ on_boundary shared_edge_point (rectangle 1 0 2 1) = true
  ∧ tally adjacent_shapes [shared_edge_point] = [("A", 0); ("B", 0)]
  ∧ total (tally adjacent_shapes [shared_edge_point]) = 0.
Proof. split_and!; vm_compute; reflexivity. Qed.

End scenarios.

(** *** Instances of the engine properties *)

Section witnesses.
Import PyDict Engine Geometry.

Lemma tally_points_one_entry_per_shape_witness :
  wf adjacent_shapes
  ∧ keys (tally_points within adjacent_shapes [shared_edge_point; pt 0 0])
    = ["A"; "B"].
Proof.
  assert (Hwf : wf adjacent_shapes) by (unfold wf; compute_done).
  split; [exact Hwf|].
  exact (proj1 (tally_points_one_entry_per_shape within adjacent_shapes
                  [shared_edge_point; pt 0 0] Hwf)).
Defined.

Lemma tally_points_order_independent_witness :
  wf overlapping_shapes
  ∧ overlapping_shapes ≡ₚ reverse overlapping_shapes
  ∧ [mkPoint (3 # 2) (1 # 2); pt 0 0] ≡ₚ [pt 0 0; mkPoint (3 # 2) (1 # 2)]
  ∧ tally_points within overlapping_shapes [mkPoint (3 # 2) (1 # 2); pt 0 0]
    = tally_points within overlapping_shapes [pt 0 0; mkPoint (3 # 2) (1 # 2)].
Proof.
  assert (Hwf : wf overlapping_shapes) by (unfold wf; compute_done).
  assert (Hs : overlapping_shapes ≡ₚ reverse overlapping_shapes)
    by apply perm_swap.
  assert (Hp : [mkPoint (3 # 2) (1 # 2); pt 0 0] ≡ₚ [pt 0 0; mkPoint (3 # 2) (1 # 2)])
    by apply perm_swap.
  split_and!; [exact Hwf|exact Hs|exact Hp|].
  exact (proj1 (tally_points_order_independent within _ _ _ _ Hwf Hs Hp)).
Defined.

End witnesses.

(** ** Properties of the program *)

Section program_properties.
Import PyDict Engine Geometry Program.

(** The path of the shape file, as [main] hard-codes it. *)
Definition shapes_path : string := "example\shapes.json".

(** A diagnostic of an acquisition step. *)
Definition diagnostic (line : string) : bool := String.prefix "I/O error: " line.

(** The acquisition steps never raise: they return a pair with a flag that
    is 1 or -1. *)
Lemma get_shapes_returns (w : World) (path : string) :
  ∃ polys flag, (get_shapes w path).2 = Ok (polys, flag)
    ∧ wf polys
    ∧ ((flag = 1 ∧ load_polygons w path = Some polys
        ∧ (get_shapes w path).1 = [])
       ∨ (flag = -1 ∧ load_polygons w path = None ∧ polys = []
          ∧ (get_shapes w path).1 = [Print "I/O error: no shape data acquired."])).
Proof.
  unfold get_shapes. destruct (load_polygons w path) as [polys|] eqn:Hload.
  - exists polys, 1. split_and!; [done| |left; done].
    unfold load_polygons in Hload.
    destruct (shape_files w path) as [features|]; simpl in Hload; [|done].
    destruct (mapM feature_item features) as [l|]; simpl in Hload; [|done].
    injection Hload as <-. apply wf_of_items.
  - exists [], (-1). split_and!; [done|apply NoDup_nil_2|right; done].
Qed.

Lemma get_points_returns (w : World) :
  ∃ points flag, (get_points w).2 = Ok (points, flag)
    ∧ ((flag = 1 ∧ stdin_isatty w = false
        ∧ (∃ rows, stdin_rows w = Some rows ∧ points = PyList (points_of_rows rows))
        ∧ (get_points w).1 = [])
       ∨ (flag = -1 ∧ points = PyInt (-1)
          ∧ (stdin_isatty w = true ∨ stdin_rows w = None)
          ∧ ∃ line, (get_points w).1 = [Print line] ∧ diagnostic line = true)).
Proof.
  unfold get_points. destruct (stdin_isatty w) eqn:Htty.
  - eexists _, _. split; [done|]. right. split_and!; [done|done|by left|].
    by eexists.
  - destruct (stdin_rows w) as [rows|] eqn:Hrows.
    + eexists _, _. split; [done|]. left. split_and!; [done|done| |done].
      by exists rows.
    + eexists _, _. split; [done|]. right. split_and!; [done|done|by right|].
      by eexists.
Qed.

(** The output step on a dictionary: one row per item, in iteration order. *)
Lemma for_each_emit {A : Type} (l : list A) (f : A → event) :
  for_each l (λ a, emit (f a)) = (f <$> l, Ok ()).
Proof.
  induction l as [|a l IH]; simpl; [done|].
  rewrite IH. reflexivity.
Qed.

Lemma for_each_keys (tally l : dict string Z) :
  (∀ kv, kv ∈ l → getitem tally kv.1 = Some kv.2) →
  for_each (keys l) (λ key,
    match getitem tally key with
    | Some count => emit (WriteRow [key; str_int count])
    | None => raise "KeyError"
    end)
  = for_each l (λ kv, emit (WriteRow [kv.1; str_int kv.2])).
Proof.
  unfold keys. induction l as [|[k v] l IH]; simpl; [done|]. intros Hget.
  assert (Hk : getitem tally k = Some v).
  { apply (Hget (k, v)). apply elem_of_cons. by left. }
  rewrite Hk. unfold mbind, M_bind. simpl.
  change (list_fmap _ _ fst l) with (l.*1).
  rewrite IH; [done|].
  intros kv Hkv. apply Hget. apply elem_of_cons. by right.
Qed.

Lemma write_rows_events (tally : dict string Z) :
  wf tally →
  write_rows tally = ((λ kv, WriteRow [kv.1; str_int kv.2]) <$> tally, Ok ()).
Proof.
  intros Hwf. unfold write_rows. rewrite for_each_keys.
  - apply for_each_emit.
  - intros [k v] Hin. by apply elem_of_getitem.
Qed.

(** The standard output of a sequence of rows. *)
Lemma stdout_rows (rows : list (list string)) :
  stdout (WriteRow <$> rows)
  = foldr (λ fields out, writerow tsv_writer fields +:+ out) EmptyString rows.
Proof. induction rows as [|r rows IH]; simpl; [done|]. by rewrite <- IH. Qed.

Lemma rows_written_fmap {A : Type} (f : A → list string) (l : list A) :
  rows_written ((λ a, WriteRow (f a)) <$> l) = f <$> l.
Proof. induction l as [|a l IH]; simpl; [done|]. by f_equal. Qed.

Lemma writerow_name_count (name count : string) :
  writerow tsv_writer [name; count]
  = (csv_field tsv_writer name
     +:+ String tab EmptyString +:+ csv_field tsv_writer count)
    +:+ String tab EmptyString.
Proof. reflexivity. Qed.

Lemma stdout_name_count_rows (tally : dict string Z) :
  stdout ((λ kv, WriteRow [kv.1; str_int kv.2]) <$> tally)
  = foldr (λ kv out,
            ((csv_field tsv_writer kv.1 +:+ String tab EmptyString
              +:+ csv_field tsv_writer (str_int kv.2))
             +:+ String tab EmptyString) +:+ out)
          EmptyString tally.
Proof. induction tally as [|kv tally IH]; simpl; [done|]. by rewrite <- IH. Qed.

(** A run with both acquisition steps successful: one call of the engine,
    then the rows of its result. *)
Lemma main_success (w : World) (polys : dict string Polygon) (rows : list (Q * Q)) :
  load_polygons w shapes_path = Some polys →
  stdin_isatty w = false →
  stdin_rows w = Some rows →
  main w
  = (CallTally :: ((λ kv, WriteRow [kv.1; str_int kv.2])
                   <$> tally polys (points_of_rows rows)), Ok ()).
Proof.
  intros Hload Htty Hrows. unfold main, get_shapes, get_points.
  fold shapes_path. rewrite Hload, Htty, Hrows.
  unfold mbind, M_bind, call_tally_points. simpl.
  rewrite write_rows_events by apply tally_points_wf. done.
Qed.

(** C8: when the shape acquisition or the point acquisition reports
    failure, the run never calls the tally engine, writes no row of counts,
    prints the diagnostic of each failed step and then that it aborts. *)
Theorem main_aborts_on_acquisition_failure
    (w : World) (polys : dict string Polygon) (polys_flag : Z)
    (points : points_value) (points_flag : Z) :
  (get_shapes w shapes_path).2 = Ok (polys, polys_flag) →
  (get_points w).2 = Ok (points, points_flag) →
  polys_flag ≠ 1 ∨ points_flag ≠ 1 →
  tally_calls (main w).1 = 0%nat
  ∧ rows_written (main w).1 = []
  ∧ (∃ diagnostics,
       (main w).1 = (Print <$> diagnostics) ++ [Print "Aborting."]
       ∧ diagnostics ≠ []
       ∧ Forall (λ line, diagnostic line = true) diagnostics)
  ∧ (main w).2 = Ok ().
Proof.
  unfold main, get_shapes, get_points. fold shapes_path.
  destruct (load_polygons w shapes_path) as [ps|];
    destruct (stdin_isatty w); [|destruct (stdin_rows w) as [rows|]| |destruct (stdin_rows w) as [rows|]];
    simpl; intros [= <- <-] [= <- <-] Hflag;
    try (exfalso; destruct Hflag as [Hf|Hf]; by apply Hf).
  - split_and!; [done|done| |done].
    exists ["I/O error: no input file name provided."].
    split_and!; [done|done|]. by repeat constructor.
  - split_and!; [done|done| |done].
    exists ["I/O error: no point data acquired."].
    split_and!; [done|done|]. by repeat constructor.
  - split_and!; [done|done| |done].
    exists ["I/O error: no shape data acquired.";
            "I/O error: no input file name provided."].
    split_and!; [done|done|]. by repeat constructor.
  - split_and!; [done|done| |done].
    exists ["I/O error: no shape data acquired."].
    split_and!; [done|done|]. by repeat constructor.
  - split_and!; [done|done| |done].
    exists ["I/O error: no shape data acquired.";
            "I/O error: no point data acquired."].
    split_and!; [done|done|]. by repeat constructor.
Qed.

(** C10: when the point acquisition fails (no file on the standard input,
    or the table cannot be read), [get_points] returns the integer -1 in
    place of the list of points, with the flag -1; the first component is a
    list of points exactly when the flag is 1. *)
Theorem get_points_failure_value
    (w : World) (points : points_value) (flag : Z) :
  (get_points w).2 = Ok (points, flag) →
  (stdin_isatty w = true ∨ stdin_rows w = None ↔ flag ≠ 1)
  ∧ (flag ≠ 1 → points = PyInt (-1) ∧ flag = -1)
  ∧ (flag = 1 ↔ ∃ l, points = PyList l).
Proof.
  unfold get_points.
  destruct (stdin_isatty w); [|destruct (stdin_rows w) as [rows|]];
    simpl; intros [= <- <-]; split_and!; try done.
  - split; [by intros _ [=]|by left].
  - split; [by intros [=]|by intros [l [=]]].
  - split; [by intros [[=]|[=]]|]. intros Hne. by destruct Hne.
  - split; [by eexists|done].
  - split; [by intros _ [=]|by right].
  - split; [by intros [=]|by intros [l [=]]].
Qed.

End program_properties.

(** *** Runs of the program *)

Section runs.
Import PyDict Engine Geometry Program.

(** The shape file holds the square (as a closed ring); the standard input
    holds the rows (lat, lon) of the four points of the scenario. *)
Definition world_square : World :=
  mkWorld
    (λ path, if decide (path = shapes_path)
             then Some [mkFeature "square" [[vx 0 0; vx 0 2; vx 2 2; vx 2 0; vx 0 0]]]
             else None)
    false
    (Some [(1, 1); (3, 3); (1, 0); (0, 0)]%Q).

(** No shape file can be read. *)
Definition world_no_shapes : World :=
  mkWorld (λ _, None) false (Some [(1, 1)]%Q).

(** No file is attached to the standard input. *)
Definition world_no_input : World :=
  mkWorld (shape_files world_square) true None.

Example run_square :
  main world_square = ([CallTally; WriteRow ["square"; "1"]], Ok ())
  ∧ stdout (main world_square).1
    = "square" +:+ String tab ("1" +:+ String tab EmptyString).
Proof. split; vm_compute; reflexivity. Qed.

Example run_no_shapes :
  main world_no_shapes
  = ([Print "I/O error: no shape data acquired."; Print "Aborting."], Ok ()).
Proof. vm_compute. reflexivity. Qed.

Example run_no_input :
  main world_no_input
  = ([Print "I/O error: no input file name provided."; Print "Aborting."], Ok ()).
Proof. vm_compute. reflexivity. Qed.

(** The latitude comes first in the input and second in the point. *)
Example points_of_rows_swaps :
  points_of_rows [(34, -118)%Q] = [mkPoint (-118) 34].
Proof. reflexivity. Qed.

Lemma tally_points_count_bounds_witness :
  Forall (λ kv, 0 ≤ kv.2 ≤ 4) (tally_points within square_shapes square_points).
Proof.
  exact (proj1 (tally_points_count_bounds within square_shapes square_points)).
Defined.

Lemma tally_points_empty_inputs_witness :
  wf adjacent_shapes
  ∧ tally_points within adjacent_shapes [] = [("A", 0); ("B", 0)].
Proof.
  assert (Hwf : wf adjacent_shapes) by (unfold wf; compute_done).
  split; [exact Hwf|].
  exact (proj2 (proj2 (tally_points_empty_inputs within)) adjacent_shapes Hwf).
Defined.

Lemma main_aborts_on_acquisition_failure_witness :
  (get_shapes world_no_shapes shapes_path).2 = Ok ([], -1)
  ∧ (get_points world_no_shapes).2 = Ok (PyList [mkPoint 1 1], 1)
  ∧ ((-1 : Z) ≠ 1 ∨ (1 : Z) ≠ 1)
  ∧ tally_calls (main world_no_shapes).1 = 0%nat
  ∧ rows_written (main world_no_shapes).1 = [].
Proof.
  assert (Hflag : (-1 : Z) ≠ 1 ∨ (1 : Z) ≠ 1) by (left; lia).
  split_and!; [reflexivity|reflexivity|exact Hflag| |].
  - exact (proj1 (main_aborts_on_acquisition_failure world_no_shapes
                    [] (-1) (PyList [mkPoint 1 1]) 1 eq_refl eq_refl Hflag)).
  - exact (proj1 (proj2 (main_aborts_on_acquisition_failure world_no_shapes
                    [] (-1) (PyList [mkPoint 1 1]) 1 eq_refl eq_refl Hflag))).
Defined.

Lemma get_points_failure_value_witness :
  (get_points world_no_input).2 = Ok (PyInt (-1), -1)
  ∧ ((-1 : Z) ≠ 1 → PyInt (-1) = PyInt (-1) ∧ (-1 : Z) = -1).
Proof.
  split; [reflexivity|].
  exact (proj1 (proj2 (get_points_failure_value world_no_input
                         (PyInt (-1)) (-1) eq_refl))).
Defined.

End runs.


(** ** Further properties of the tally engine *)

Section tally_algebra.
Import PyDict Engine.
Context {K Pt Poly : Type} `{EqDecision K}.
Variable within : Pt → Poly → bool.

(** The number of polygons among the items of a shape set that contain a
    point. *)
Definition containing (pt : Pt) (polygons : list (K * Poly)) : nat :=
  length (filter (λ item, within pt item.2 = true) polygons).

(** The sum over the points of the number of polygons that contain each. *)
Definition containments (polygons : dict K Poly) (points : list Pt) : Z :=
  foldr (λ pt s, Z.of_nat (containing pt polygons) + s) 0 points.

Lemma count_points_app poly (points1 points2 : list Pt) :
  count_points within poly (points1 ++ points2)
  = count_points within poly points1 + count_points within poly points2.
Proof. rewrite !count_points_filter, filter_app, length_app. lia. Qed.

Lemma count_points_replicate poly (n : nat) (pt : Pt) :
  count_points within poly (replicate n pt)
  = if within pt poly then Z.of_nat n else 0.
Proof.
  induction n as [|n IH]; [by destruct (within pt poly)|].
  change (replicate (S n) pt) with (pt :: replicate n pt).
  rewrite count_points_cons, IH. destruct (within pt poly); lia.
Qed.

Lemma total_fmap (g : K * Poly → Z) (polygons : dict K Poly) :
  total ((λ item, (item.1, g item)) <$> polygons)
  = foldr (λ item s, g item + s) 0 polygons.
Proof. induction polygons as [|item polygons IH]; simpl; [done|]. by rewrite <- IH. Qed.

Lemma sum_counts_cons (polygons : dict K Poly) (pt : Pt) (points : list Pt) :
  foldr (λ item s, count_points within item.2 (pt :: points) + s) 0 polygons
  = Z.of_nat (containing pt polygons)
    + foldr (λ item s, count_points within item.2 points + s) 0 polygons.
Proof.
  unfold containing. induction polygons as [|item polygons IH]; [done|].
  cbn [foldr]. rewrite IH, count_points_cons, filter_cons.
  destruct (within pt item.2);
    [rewrite decide_True by done|rewrite decide_False by done];
    cbn [length]; lia.
Qed.

Lemma sum_counts_containments (polygons : dict K Poly) (points : list Pt) :
  foldr (λ item s, count_points within item.2 points + s) 0 polygons
  = containments polygons points.
Proof.
  induction points as [|pt points IH]; simpl.
  - induction polygons as [|item polygons IHp]; simpl; [done|]. by rewrite IHp.
  - by rewrite sum_counts_cons, IH.
Qed.

Lemma total_tally_containments (polygons : dict K Poly) (points : list Pt) :
  wf polygons →
  total (tally_points within polygons points) = containments polygons points.
Proof.
  intros Hwf. rewrite tally_points_map by done.
  rewrite (total_fmap (λ item, count_points within item.2 points)).
  apply sum_counts_containments.
Qed.

Lemma containing_le (pt : Pt) (polygons : dict K Poly) :
  (containing pt polygons ≤ length polygons)%nat.
Proof. apply length_filter. Qed.

Lemma tally_from_irrelevant_point d0 (polygons : dict K Poly)
    (points1 points2 : list Pt) (pt : Pt) :
  (∀ item, item ∈ polygons → within pt item.2 = false) →
  tally_from within d0 polygons (points1 ++ pt :: points2)
  = tally_from within d0 polygons (points1 ++ points2).
Proof.
  unfold tally_from. revert d0.
  induction polygons as [|item polygons IH]; intros d0 Hout; simpl; [done|].
  rewrite IH by (intros i Hi; apply Hout, elem_of_cons; by right).
  rewrite !count_points_app, count_points_cons.
  rewrite (Hout item) by (apply elem_of_cons; by left). done.
Qed.

(** X1: the tally of two point sets put together is, shape by shape, the sum
    of the two tallies (points can be tallied in batches). *)
Theorem tally_points_app
    (polygons : dict K Poly) (points1 points2 : list Pt) :
  wf polygons →
  tally_points within polygons (points1 ++ points2)
  = zip_with (λ a b, (a.1, a.2 + b.2))
      (tally_points within polygons points1)
      (tally_points within polygons points2).
Proof.
  intros Hwf. rewrite !tally_points_map by done.
  rewrite zip_with_fmap_l, zip_with_fmap_r, zip_with_diag.
  apply list_fmap_ext. intros i item _. simpl. by rewrite count_points_app.
Qed.

(** X2: the counts of a tally add up to the number of (point, polygon)
    pairs with the point within the polygon, every point counting once per
    polygon that contains it; the sum lies between 0 and the number of
    points times the number of shapes. *)
Theorem total_counts_containments
    (polygons : dict K Poly) (points : list Pt) :
  wf polygons →
  total (tally_points within polygons points) = containments polygons points
  ∧ 0 ≤ total (tally_points within polygons points)
      ≤ Z.of_nat (length points) * Z.of_nat (length polygons).
Proof.
  intros Hwf. rewrite total_tally_containments by done. split; [done|].
  induction points as [|pt points IH]; simpl; [lia|].
  pose proof (containing_le pt polygons). lia.
Qed.

(** X3: when every point is within at most one polygon of the shape set the
    counts add up to at most the number of points, and when every point is
    within exactly one polygon they add up to the number of points. *)
Theorem total_counts_partition
    (polygons : dict K Poly) (points : list Pt) :
  wf polygons →
  ((∀ pt, pt ∈ points → (containing pt polygons ≤ 1)%nat) →
     total (tally_points within polygons points) ≤ Z.of_nat (length points))
  ∧ ((∀ pt, pt ∈ points → containing pt polygons = 1%nat) →
     total (tally_points within polygons points) = Z.of_nat (length points)).
Proof.
  intros Hwf. rewrite total_tally_containments by done. split.
  - induction points as [|pt points IH]; intros Hone; simpl; [lia|].
    pose proof (Hone pt (list_elem_of_here _ _)).
    assert (containments polygons points ≤ Z.of_nat (length points)).
    { apply IH. intros p Hp. apply Hone, elem_of_cons. by right. }
    lia.
  - induction points as [|pt points IH]; intros Hone; simpl; [lia|].
    pose proof (Hone pt (list_elem_of_here _ _)).
    assert (containments polygons points = Z.of_nat (length points)).
    { apply IH. intros p Hp. apply Hone, elem_of_cons. by right. }
    lia.
Qed.

(** X4: the count of a shape does not depend on the other shapes: the tally
    of a shape set is the tally of its first part followed by the tally of
    the rest. *)
Theorem tally_points_shapes_app
    (polygons1 polygons2 : dict K Poly) (points : list Pt) :
  wf (polygons1 ++ polygons2) →
  tally_points within (polygons1 ++ polygons2) points
  = tally_points within polygons1 points ++ tally_points within polygons2 points.
Proof.
  intros Hwf. pose proof Hwf as Hwf'. unfold wf, keys in Hwf'.
  rewrite fmap_app in Hwf'. apply NoDup_app in Hwf' as (Hwf1 & _ & Hwf2).
  rewrite !tally_points_map by done. apply fmap_app.
Qed.

(** X5: a point that is within no polygon of the shape set changes no
    count, wherever it stands in the point set. *)
Theorem tally_points_irrelevant_point
    (polygons : dict K Poly) (points1 points2 : list Pt) (pt : Pt) :
  (∀ item, item ∈ polygons → within pt item.2 = false) →
  tally_points within polygons (points1 ++ pt :: points2)
  = tally_points within polygons (points1 ++ points2).
Proof. intros Hout. by apply (tally_from_irrelevant_point []). Qed.

(** X6: a point that occurs several times is counted once per occurrence:
    on [n] copies of one point the count of a shape is [n] when the point
    is within its polygon and 0 otherwise. *)
Theorem tally_points_replicate
    (polygons : dict K Poly) (n : nat) (pt : Pt) :
  wf polygons →
  tally_points within polygons (replicate n pt)
  = (λ item, (item.1, if within pt item.2 then Z.of_nat n else 0)) <$> polygons.
Proof.
  intros Hwf. rewrite tally_points_map by done.
  apply list_fmap_ext. intros i item _. simpl.
  by rewrite count_points_replicate.
Qed.

End tally_algebra.


(** ** Further properties of the acquisition steps *)

Section acquisition_properties.
Import PyDict Engine Geometry Program.

(** A feature [get_shapes] can turn into a polygon: its coordinates hold at
    least one ring and the first ring has three vertices or more. *)
Definition usable (i : Feature) : Prop :=
  ∃ shell rest, geometry_coordinates i = shell :: rest ∧ (3 ≤ length shell)%nat.

(** The first ring of a feature (empty when it has no ring). *)
Definition first_ring (i : Feature) : list (Q * Q) :=
  default [] (head (geometry_coordinates i)).

(** The keys of a list of items in the order of their first occurrence. *)
Definition first_occurrences {K : Type} `{EqDecision K} (ks : list K) : list K :=
  reverse (remove_dups (reverse ks)).

Lemma feature_item_usable (i : Feature) :
  usable i → feature_item i = Some (properties_id i, mkPolygon (first_ring i)).
Proof.
  intros (shell & rest & Hc & Hlen). unfold feature_item, first_ring.
  rewrite Hc. simpl.
  destruct shell as [|a [|b [|c shell]]]; simpl in Hlen; try lia; done.
Qed.

Lemma mapM_feature_item_usable (features : list Feature) :
  Forall usable features →
  mapM feature_item features
  = Some ((λ i, (properties_id i, mkPolygon (first_ring i))) <$> features).
Proof.
  induction 1 as [|i features Hi _ IH]; [done|].
  cbn [mapM]. rewrite (feature_item_usable i Hi), IH. done.
Qed.

Section dict_facts.
Context {K V : Type} `{EqDecision K}.

Lemma getitem_setitem_eq (d : dict K V) k v : getitem (setitem d k v) k = Some v.
Proof.
  induction d as [|[k' v'] d IH]; simpl.
  - by rewrite decide_True.
  - destruct (decide (k = k')) as [->|Hne]; simpl.
    + by rewrite decide_True.
    + by rewrite decide_False.
Qed.

Lemma getitem_setitem_ne (d : dict K V) k k' v :
  k' ≠ k → getitem (setitem d k v) k' = getitem d k'.
Proof.
  intros Hne. induction d as [|[k0 v0] d IH]; simpl.
  - by rewrite decide_False.
  - destruct (decide (k = k0)) as [->|Hne0]; simpl.
    + by rewrite !decide_False.
    + destruct (decide (k' = k0)); [done|apply IH].
Qed.

Lemma keys_setitem (d : dict K V) k v :
  keys (setitem d k v) = if decide (k ∈ keys d) then keys d else keys d ++ [k].
Proof.
  destruct (decide (k ∈ keys d)) as [Hin|Hnin].
  - by apply keys_setitem_present.
  - rewrite keys_setitem_fresh by done. unfold keys. by rewrite fmap_app.
Qed.

Lemma update_snoc (d e : dict K V) k v :
  update d (e ++ [(k, v)]) = setitem (update d e) k v.
Proof. unfold update. by rewrite foldl_app. Qed.

Lemma elem_of_keys_of_items (l : list (K * V)) k :
  k ∈ keys (of_items l) ↔ k ∈ l.*1.
Proof.
  unfold of_items. induction l as [|[k0 v0] l IH] using rev_ind; [done|].
  rewrite update_snoc, keys_setitem, fmap_app, elem_of_app. simpl.
  rewrite list_elem_of_singleton.
  destruct (decide (k0 ∈ keys (update [] l))) as [Hin|Hnin].
  - rewrite IH. split; [by left|]. intros [?| ->]; [done|]. by apply IH.
  - rewrite elem_of_app, list_elem_of_singleton, IH. done.
Qed.

Lemma keys_of_items (l : list (K * V)) :
  keys (of_items l) = first_occurrences (l.*1).
Proof.
  unfold first_occurrences.
  induction l as [|[k0 v0] l IH] using rev_ind; [done|].
  unfold of_items. rewrite update_snoc, keys_setitem. fold (of_items l).
  rewrite fmap_app, reverse_app. simpl.
  assert (Hiff : k0 ∈ keys (of_items l) ↔ k0 ∈ reverse l.*1).
  { by rewrite elem_of_keys_of_items, elem_of_reverse. }
  destruct (decide (k0 ∈ keys (of_items l))) as [Hin|Hnin];
    destruct (decide_rel elem_of k0 (reverse l.*1)) as [Hr|Hr].
  - done.
  - by apply Hiff in Hin.
  - by apply Hiff in Hr.
  - rewrite reverse_cons. by rewrite IH.
Qed.

Lemma getitem_of_items (l : list (K * V)) k :
  getitem (of_items l) k = snd <$> last (filter (λ kv, kv.1 = k) l).
Proof.
  induction l as [|[k0 v0] l IH] using rev_ind; [done|].
  unfold of_items. rewrite update_snoc. fold (of_items l).
  rewrite filter_app, filter_cons, filter_nil. simpl.
  destruct (decide (k0 = k)) as [->|Hne].
  - rewrite getitem_setitem_eq. by rewrite last_snoc.
  - rewrite getitem_setitem_ne by done. by rewrite app_nil_r.
Qed.

End dict_facts.

Lemma length_first_occurrences {K : Type} `{EqDecision K} (ks : list K) :
  (length (first_occurrences ks) ≤ length ks)%nat.
Proof.
  unfold first_occurrences. rewrite length_reverse, <- (length_reverse ks).
  induction (reverse ks) as [|k l IH]; simpl; [done|].
  destruct (decide_rel elem_of k l); simpl; lia.
Qed.

Lemma filter_fmap_key {A K V : Type} `{EqDecision K}
    (f : A → K) (g : A → V) (k : K) (l : list A) :
  filter (λ kv : K * V, kv.1 = k) ((λ a, (f a, g a)) <$> l)
  = (λ a, (f a, g a)) <$> filter (λ a, f a = k) l.
Proof.
  induction l as [|a l IH]; [done|].
  rewrite fmap_cons, !filter_cons. simpl.
  destruct (decide (f a = k)); by rewrite IH.
Qed.

(** X7: on a shape file whose features all have a first ring of three
    vertices or more, [get_shapes] succeeds silently with flag 1; the shape
    set is the dictionary of the features' ids with the polygons of their
    first rings, so any further ring (a hole) of a feature is ignored. *)
Theorem get_shapes_usable_features
    (w : World) (path : string) (features : list Feature) :
  shape_files w path = Some features →
  Forall usable features →
  get_shapes w path
  = ([], Ok (of_items ((λ i, (properties_id i, mkPolygon (first_ring i)))
                       <$> features), 1)).
Proof.
  intros Hfile Hok. unfold get_shapes, load_polygons.
  rewrite Hfile. simpl. by rewrite (mapM_feature_item_usable features Hok).
Qed.

(** X8: the shape set is acquired whole or not at all: when the file cannot
    be read, or one of its features has an empty list of coordinates,
    [get_shapes] returns the empty dictionary with the flag -1 and prints
    its one diagnostic, whatever the other features are. *)
Theorem get_shapes_all_or_nothing (w : World) (path : string) :
  shape_files w path = None
  ∨ (∃ features i, shape_files w path = Some features
       ∧ i ∈ features ∧ geometry_coordinates i = []) →
  get_shapes w path
  = ([Print "I/O error: no shape data acquired."], Ok ([], -1)).
Proof.
  intros Hbad. unfold get_shapes.
  assert (Hload : load_polygons w path = None); [|by rewrite Hload].
  unfold load_polygons.
  destruct Hbad as [->|(features & i & -> & Hin & Hempty)]; [done|]. simpl.
  assert (Hnone : mapM feature_item features = None); [|by rewrite Hnone].
  apply mapM_None_2, Exists_exists. exists i. split; [done|].
  unfold feature_item. by rewrite Hempty.
Qed.

(** X9: features that share an id make one shape: the shape set [get_shapes]
    returns has no name twice, its names stand in the order of their first
    feature, and a name holds the polygon of the last feature with that
    id. *)
Theorem get_shapes_duplicate_ids
    (w : World) (path : string) (features : list Feature) :
  shape_files w path = Some features →
  Forall usable features →
  ∃ polys, (get_shapes w path).2 = Ok (polys, 1)
    ∧ wf polys
    ∧ keys polys = first_occurrences (properties_id <$> features)
    ∧ (length polys ≤ length features)%nat
    ∧ ∀ name, getitem polys name
        = (λ i, mkPolygon (first_ring i))
          <$> last (filter (λ i, properties_id i = name) features).
Proof.
  intros Hfile Hok. eexists. split.
  { unfold get_shapes, load_polygons. rewrite Hfile. simpl.
    by rewrite (mapM_feature_item_usable features Hok). }
  assert (Hkeys : keys (of_items ((λ i, (properties_id i, mkPolygon (first_ring i)))
                                  <$> features))
                  = first_occurrences (properties_id <$> features)).
  { rewrite keys_of_items. f_equal. rewrite <- list_fmap_compose.
    by apply list_fmap_ext. }
  split_and!.
  - apply wf_of_items.
  - exact Hkeys.
  - rewrite <- (length_fmap fst). fold (keys (of_items ((λ i, (properties_id i, mkPolygon (first_ring i))) <$> features))).
    rewrite Hkeys. etrans; [apply length_first_occurrences|].
    by rewrite length_fmap.
  - intros name. rewrite getitem_of_items.
    rewrite (filter_fmap_key properties_id (λ i, mkPolygon (first_ring i))).
    rewrite fmap_last. by destruct (last _).
Qed.

(** X10: when a table is read from the standard input, [get_points] succeeds
    silently with flag 1 and returns one point per row, in the order of the
    rows; the point of a row (lat, lon) has x = lon and y = lat. *)
Theorem get_points_swaps_columns (w : World) (rows : list (Q * Q)) :
  stdin_isatty w = false →
  stdin_rows w = Some rows →
  ∃ points, get_points w = ([], Ok (PyList points, 1))
    ∧ length points = length rows
    ∧ ∀ (i : nat) lat lon, rows !! i = Some (lat, lon) →
        points !! i = Some (mkPoint lon lat).
Proof.
  intros Htty Hrows. exists (points_of_rows rows). split_and!.
  - unfold get_points. by rewrite Htty, Hrows.
  - unfold points_of_rows. apply length_fmap.
  - intros i lat lon Hi. unfold points_of_rows.
    by rewrite list_lookup_fmap, Hi.
Qed.

End acquisition_properties.


(** ** Further properties of a run *)

Section run_properties.
Import PyDict Engine Geometry Program.

Lemma tally_calls_rows {A : Type} (f : A → list string) (l : list A) :
  tally_calls ((λ a, WriteRow (f a)) <$> l) = 0%nat.
Proof. induction l as [|a l IH]; [done|]. exact IH. Qed.

Lemma lines_printed_rows {A : Type} (f : A → list string) (l : list A) :
  lines_printed ((λ a, WriteRow (f a)) <$> l) = [].
Proof. induction l as [|a l IH]; [done|]. exact IH. Qed.

Lemma append_empty (s1 s2 : string) :
  s1 +:+ s2 = EmptyString → s1 = EmptyString ∧ s2 = EmptyString.
Proof. destruct s1; [done|]. simpl. discriminate. Qed.

Lemma stdout_rows_empty (d : dict string Z) :
  stdout ((λ kv, WriteRow [kv.1; str_int kv.2]) <$> d) = EmptyString → d = [].
Proof.
  destruct d as [|kv d]; [done|]. rewrite fmap_cons.
  change (stdout (?e :: ?t)) with (stdout_event e +:+ stdout t).
  intros [Hrow _]%append_empty. unfold stdout_event in Hrow.
  rewrite (writerow_name_count kv.1) in Hrow.
  by apply append_empty in Hrow as [_ ?].
Qed.

Lemma get_shapes_flag_1 (w : World) (path : string) polys :
  (get_shapes w path).2 = Ok (polys, 1) →
  load_polygons w path = Some polys ∧ wf polys.
Proof.
  intros Hret. destruct (get_shapes_returns w path)
    as (polys' & flag & Hret' & Hwf & [(-> & Hload & _)|(-> & _)]);
    rewrite Hret in Hret'; by simplify_eq.
Qed.

Lemma get_points_flag_1 (w : World) points :
  (get_points w).2 = Ok (points, 1) →
  stdin_isatty w = false
  ∧ ∃ rows, stdin_rows w = Some rows ∧ points = PyList (points_of_rows rows).
Proof.
  intros Hret. destruct (get_points_returns w)
    as (points' & flag & Hret' & [(-> & Htty & (rows & Hrows & ->) & _)|(-> & _)]);
    rewrite Hret in Hret'; simplify_eq; eauto.
Qed.

(** The cases of a run: each failed or successful acquisition. *)
Ltac run_cases w :=
  unfold main, get_shapes, get_points; fold shapes_path;
  destruct (load_polygons w shapes_path) as [?polys|] eqn:?Hload;
  destruct (stdin_isatty w) eqn:?Htty;
  destruct (stdin_rows w) as [?rows|] eqn:?Hrows.


(** X12: when both acquisition steps report success the run prints no line
    at all, calls the tally engine exactly once, on the shapes and the
    points acquired, and writes one row per shape, in the order of the
    shape set, with the name and the count of the shape. *)
Theorem main_success_run
    (w : World) (polys : dict string Polygon) (points : points_value) :
  (get_shapes w shapes_path).2 = Ok (polys, 1) →
  (get_points w).2 = Ok (points, 1) →
  ∃ pts, points = PyList pts
    ∧ (main w).1
      = CallTally :: ((λ kv, WriteRow [kv.1; str_int kv.2]) <$> tally polys pts)
    ∧ tally_calls (main w).1 = 1%nat
    ∧ lines_printed (main w).1 = []
    ∧ rows_written (main w).1
      = (λ item, [item.1; str_int (count_points within item.2 pts)]) <$> polys.
Proof.
  intros [Hload Hwf]%get_shapes_flag_1 (Htty & rows & Hrows & ->)%get_points_flag_1.
  exists (points_of_rows rows). rewrite (main_success w polys rows) by done.
  split_and!; [done|done| | |].
  - cbn [fst]. change (tally_calls (CallTally :: ?t)) with (S (tally_calls t)).
    by rewrite (tally_calls_rows (λ kv, [kv.1; str_int kv.2])).
  - cbn [fst]. change (lines_printed (CallTally :: ?t)) with (lines_printed t).
    apply (lines_printed_rows (λ kv, [kv.1; str_int kv.2])).
  - cbn [fst]. change (rows_written (CallTally :: ?t)) with (rows_written t).
    rewrite (rows_written_fmap (λ kv, [kv.1; str_int kv.2])).
    unfold tally. rewrite tally_points_map by done.
    rewrite <- list_fmap_compose. by apply list_fmap_ext.
Qed.

(** X13: a run always performs both acquisition steps, the shapes first:
    its trace is the trace of [get_shapes], then the trace of [get_points]
    (also after the shapes failed), then either the line that it aborts or
    the call of the engine and the rows. *)
Theorem main_runs_both_acquisitions (w : World) :
  ∃ rest,
    (main w).1 = (get_shapes w shapes_path).1 ++ (get_points w).1 ++ rest
    ∧ (rest = [Print "Aborting."]
       ∨ ∃ rows, rest = CallTally :: (WriteRow <$> rows)).
Proof.
  destruct (load_polygons w shapes_path) as [polys|] eqn:Hload;
    destruct (stdin_isatty w) eqn:Htty;
    destruct (stdin_rows w) as [rows|] eqn:Hrows;
    try (rewrite (main_success w polys rows) by done;
         unfold get_shapes, get_points; rewrite Hload, Htty, Hrows;
         eexists; split; [reflexivity|right];
         eexists ((λ kv, [kv.1; str_int kv.2]) <$> _);
         by rewrite <- list_fmap_compose);
    unfold main, get_shapes, get_points; fold shapes_path;
    rewrite Hload, Htty, ?Hrows; eexists; split; try reflexivity; by left.
Qed.

(** X14: when an acquisition step reports failure the standard output,
    the stream the rows would go to, is not empty: it begins with the
    diagnostic of the first failed step and ends with the line
    [Aborting.]. *)
Theorem main_failure_stdout
    (w : World) (polys : dict string Polygon) (polys_flag : Z)
    (points : points_value) (points_flag : Z) :
  (get_shapes w shapes_path).2 = Ok (polys, polys_flag) →
  (get_points w).2 = Ok (points, points_flag) →
  polys_flag ≠ 1 ∨ points_flag ≠ 1 →
  String.prefix "I/O error: " (stdout (main w).1) = true
  ∧ ∃ diagnostics,
      stdout (main w).1
      = diagnostics +:+ ("Aborting." +:+ String newline EmptyString).
Proof.
  run_cases w; simpl; intros [= <- <-] [= <- <-] Hflag;
    try (exfalso; destruct Hflag as [Hf|Hf]; by apply Hf);
    (split; [reflexivity|]).
  - by exists ("I/O error: no input file name provided." +:+ String newline EmptyString).
  - by exists ("I/O error: no input file name provided." +:+ String newline EmptyString).
  - by exists ("I/O error: no point data acquired." +:+ String newline EmptyString).
  - by exists ("I/O error: no shape data acquired." +:+ String newline
               ("I/O error: no input file name provided." +:+ String newline EmptyString)).
  - by exists ("I/O error: no shape data acquired." +:+ String newline
               ("I/O error: no input file name provided." +:+ String newline EmptyString)).
  - by exists ("I/O error: no shape data acquired." +:+ String newline EmptyString).
  - by exists ("I/O error: no shape data acquired." +:+ String newline
               ("I/O error: no point data acquired." +:+ String newline EmptyString)).
Qed.

(** X15: the standard output of a run is empty exactly when both
    acquisition steps succeeded and the shape set is empty. *)
Theorem main_stdout_empty (w : World) :
  stdout (main w).1 = EmptyString
  ↔ ∃ points, (get_shapes w shapes_path).2 = Ok ([], 1)
      ∧ (get_points w).2 = Ok (points, 1).
Proof.
  destruct (load_polygons w shapes_path) as [polys|] eqn:Hload;
    destruct (stdin_isatty w) eqn:Htty;
    destruct (stdin_rows w) as [rows|] eqn:Hrows;
    try (rewrite (main_success w polys rows) by done;
         unfold get_shapes, get_points; rewrite Hload, Htty, Hrows; simpl;
         split;
         [ intros Hout; apply stdout_rows_empty in Hout;
           assert (Hwf : wf polys) by
             (apply (get_shapes_flag_1 w shapes_path); unfold get_shapes;
              by rewrite Hload);
           unfold tally in Hout; rewrite tally_points_map in Hout by done;
           apply fmap_nil_inv in Hout as ->; by eexists
         | by intros (points & [= ->] & _) ]);
    unfold main, get_shapes, get_points; fold shapes_path;
    rewrite Hload, Htty, ?Hrows; simpl;
    (split; [discriminate|by intros (points & [=] & [=])]).
Qed.

End run_properties.


(** ** Reading the output back *)

Section output_properties.
Import PyDict Engine Geometry Program.

(** The pieces of a string between the occurrences of a character. *)
Fixpoint split_on (c : ascii) (s : string) : list string :=
  match s with
  | EmptyString => [EmptyString]
  | String a s' =>
      if decide (a = c) then EmptyString :: split_on c s'
      else match split_on c s' with
           | piece :: pieces => String a piece :: pieces
           | [] => [String a EmptyString]
           end
  end.

(** A character a name can hold without the writer touching the field: no
    tab, no double quote, no line break. *)
Definition plain_char (c : ascii) : bool :=
  negb (bool_decide (c = tab)) && negb (bool_decide (c = double_quote))
  && negb (bool_decide (c = newline)) && negb (bool_decide (c = ascii_of_nat 13)).

Definition plain (field : string) : Prop :=
  Forall (λ c, plain_char c = true) (list_ascii_of_string field).

(** The fields of the rows of a tally result, one after the other. *)
Definition fields_of (d : dict string Z) : list string :=
  d ≫= λ kv, [kv.1; str_int kv.2].

(** Reading the stream back as a reader of delimited text does: a field
    ends at a tab; a field that begins with a double quote runs to its
    closing double quote, and two double quotes inside it stand for one.
    The result ends with the piece after the last tab. *)
Inductive reader_state : Type := FieldStart | InPlain | InQuoted | AfterQuote.

(** A character put in front of the first piece. *)
Definition push (a : ascii) (pieces : list string) : list string :=
  match pieces with
  | piece :: rest => String a piece :: rest
  | [] => [String a EmptyString]
  end.

Fixpoint read_from (st : reader_state) (s : string) : list string :=
  match s with
  | EmptyString => [EmptyString]
  | String a s' =>
      match st with
      | FieldStart =>
          if decide (a = double_quote) then read_from InQuoted s'
          else if decide (a = tab) then EmptyString :: read_from FieldStart s'
          else push a (read_from InPlain s')
      | InPlain =>
          if decide (a = tab) then EmptyString :: read_from FieldStart s'
          else push a (read_from InPlain s')
      | InQuoted =>
          if decide (a = double_quote) then read_from AfterQuote s'
          else push a (read_from InQuoted s')
      | AfterQuote =>
          if decide (a = double_quote) then push a (read_from InQuoted s')
          else if decide (a = tab) then EmptyString :: read_from FieldStart s'
          else push a (read_from InPlain s')
      end
  end.

Definition read_fields (s : string) : list string := read_from FieldStart s.

Lemma string_app_assoc (s1 s2 s3 : string) :
  (s1 +:+ s2) +:+ s3 = s1 +:+ (s2 +:+ s3).
Proof.
  induction s1 as [|a s1 IH]; [reflexivity|].
  change (String a ((s1 +:+ s2) +:+ s3) = String a (s1 +:+ (s2 +:+ s3))).
  by rewrite IH.
Qed.

Lemma plain_char_not_special (c : ascii) :
  plain_char c = true → special tsv_writer c = false.
Proof.
  unfold plain_char, special. simpl.
  destruct (bool_decide (c = tab)) eqn:Ht; [done|].
  destruct (bool_decide (c = double_quote)) eqn:Hq; [done|]. simpl.
  intros _. apply bool_decide_eq_false. intros ->%list_elem_of_singleton.
  by apply bool_decide_eq_false in Ht.
Qed.

Lemma csv_field_plain (field : string) :
  plain field → csv_field tsv_writer field = field.
Proof.
  unfold plain, csv_field. intros Hplain.
  assert (Hnone : existsb (special tsv_writer) (list_ascii_of_string field) = false);
    [|by rewrite Hnone].
  induction Hplain as [|c l Hc _ IH]; [done|]. simpl.
  by rewrite (plain_char_not_special c Hc), IH.
Qed.

Lemma pretty_N_char_plain (d : N) : plain_char (pretty_N_char d) = true.
Proof. unfold pretty_N_char. by repeat case_match. Qed.

Lemma pretty_N_go_plain (n : N) (s : string) :
  plain s → plain (pretty_N_go n s).
Proof.
  revert s. induction (N.lt_wf_0 n) as [n _ IH]; intros s Hs.
  assert (n = 0 ∨ 0 < n)%N as [->|Hpos] by lia.
  - by rewrite pretty_N_go_0.
  - rewrite pretty_N_go_step by done. apply IH; [by apply N.div_lt|].
    apply Forall_cons. split; [apply pretty_N_char_plain|done].
Qed.

Lemma str_int_plain (n : Z) : plain (str_int n).
Proof.
  assert (HN : ∀ m : N, plain (pretty m)).
  { intros m. unfold pretty, pretty_N. case_decide; [by repeat constructor|].
    apply pretty_N_go_plain. constructor. }
  unfold str_int, pretty, pretty_Z. destruct n as [|p|p].
  - by repeat constructor.
  - apply (HN (N.pos p)).
  - apply Forall_cons. split; [done|apply (HN (N.pos p))].
Qed.

Lemma split_on_piece (c : ascii) (piece rest : string) :
  Forall (λ a, a ≠ c) (list_ascii_of_string piece) →
  split_on c (piece +:+ String c rest) = piece :: split_on c rest.
Proof.
  induction piece as [|a piece IH]; simpl; intros Hp.
  - by rewrite decide_True.
  - apply Forall_cons in Hp as [Ha Hp].
    change (String a piece +:+ String c rest)
      with (String a (piece +:+ String c rest)).
    simpl. rewrite decide_False by done. by rewrite IH.
Qed.

Lemma plain_no_tab (field : string) :
  plain field → Forall (λ a, a ≠ tab) (list_ascii_of_string field).
Proof.
  intros Hplain. eapply Forall_impl; [exact Hplain|].
  intros a Ha ->. by vm_compute in Ha.
Qed.

(** X16: the output of the rows can be read back: when no name holds a tab,
    a double quote or a line break, cutting the output at the tabs gives the
    name and the count of every entry of the tally result, in its order,
    and an empty piece after the last tab. *)
Theorem write_rows_split_on_tab (tally_result : dict string Z) :
  wf tally_result →
  Forall (λ kv, plain kv.1) tally_result →
  split_on tab (stdout (write_rows tally_result).1)
  = fields_of tally_result ++ [EmptyString].
Proof.
  intros Hwf Hnames. rewrite write_rows_events by done. cbn [fst].
  rewrite stdout_name_count_rows. clear Hwf.
  induction Hnames as [|kv d Hname _ IH]; [done|].
  cbn [foldr]. rewrite (csv_field_plain kv.1 Hname).
  rewrite (csv_field_plain (str_int kv.2) (str_int_plain kv.2)).
  rewrite !string_app_assoc.
  repeat change (String tab EmptyString +:+ ?s) with (String tab s) in *.
  rewrite (split_on_piece tab kv.1) by by apply plain_no_tab.
  rewrite (split_on_piece tab (str_int kv.2)) by apply plain_no_tab, str_int_plain.
  by rewrite IH.
Qed.

(** *** The reader on the fields the writer produces *)

Lemma string_of_list_ascii_app (l1 l2 : list ascii) :
  string_of_list_ascii (l1 ++ l2)
  = string_of_list_ascii l1 +:+ string_of_list_ascii l2.
Proof.
  induction l1 as [|a l1 IH]; [reflexivity|].
  change (String a (string_of_list_ascii (l1 ++ l2))
          = String a (string_of_list_ascii l1 +:+ string_of_list_ascii l2)).
  by rewrite IH.
Qed.

Lemma not_special_chars (chars : list ascii) :
  existsb (special tsv_writer) chars = false →
  Forall (λ a, a ≠ tab ∧ a ≠ double_quote) chars.
Proof.
  induction chars as [|a chars IH]; simpl; [by constructor|].
  intros [Ha Hrest]%orb_false_elim. constructor; [|by apply IH].
  unfold special in Ha. simpl in Ha.
  apply orb_false_elim in Ha as [Ha _]. apply orb_false_elim in Ha as [Ht Hq].
  by split; apply (bool_decide_eq_false_1 _).
Qed.

Lemma read_plain_piece (chars : list ascii) (rest : string) :
  Forall (λ a, a ≠ tab) chars →
  read_from InPlain (string_of_list_ascii chars +:+ String tab rest)
  = string_of_list_ascii chars :: read_from FieldStart rest.
Proof.
  induction 1 as [|a chars Ha _ IH].
  - change (read_from InPlain (String tab rest)
            = EmptyString :: read_from FieldStart rest).
    reflexivity.
  - change (read_from InPlain
              (String a (string_of_list_ascii chars +:+ String tab rest))
            = String a (string_of_list_ascii chars) :: read_from FieldStart rest).
    cbn [read_from]. rewrite decide_False by done. by rewrite IH.
Qed.

Lemma read_unquoted_field (chars : list ascii) (rest : string) :
  Forall (λ a, a ≠ tab ∧ a ≠ double_quote) chars →
  read_from FieldStart (string_of_list_ascii chars +:+ String tab rest)
  = string_of_list_ascii chars :: read_from FieldStart rest.
Proof.
  intros Hchars. destruct Hchars as [|a chars [Ht Hq] Hchars].
  - change (read_from FieldStart (String tab rest)
            = EmptyString :: read_from FieldStart rest).
    reflexivity.
  - change (read_from FieldStart
              (String a (string_of_list_ascii chars +:+ String tab rest))
            = String a (string_of_list_ascii chars) :: read_from FieldStart rest).
    cbn [read_from]. rewrite !decide_False by done.
    rewrite read_plain_piece; [done|].
    eapply Forall_impl; [exact Hchars|]. by intros c [? _].
Qed.

Lemma read_quoted_piece (chars : list ascii) (rest : string) :
  read_from InQuoted
    (string_of_list_ascii
       (chars ≫= λ c, if bool_decide (c = double_quote) then [c; c] else [c])
     +:+ String double_quote (String tab rest))
  = string_of_list_ascii chars :: read_from FieldStart rest.
Proof.
  induction chars as [|c chars IH].
  - change (read_from InQuoted (String double_quote (String tab rest))
            = EmptyString :: read_from FieldStart rest).
    reflexivity.
  - rewrite bind_cons, string_of_list_ascii_app, string_app_assoc.
    destruct (bool_decide (c = double_quote)) eqn:Hc.
    + apply bool_decide_eq_true in Hc as ->.
      change (read_from InQuoted
                (String double_quote (String double_quote
                   (string_of_list_ascii
                      (chars ≫= λ c, if bool_decide (c = double_quote)
                                      then [c; c] else [c])
                    +:+ String double_quote (String tab rest))))
              = String double_quote (string_of_list_ascii chars)
                :: read_from FieldStart rest).
      cbn [read_from]. rewrite !decide_True by done. by rewrite IH.
    + apply bool_decide_eq_false in Hc.
      change (read_from InQuoted
                (String c
                   (string_of_list_ascii
                      (chars ≫= λ c, if bool_decide (c = double_quote)
                                      then [c; c] else [c])
                    +:+ String double_quote (String tab rest)))
              = String c (string_of_list_ascii chars)
                :: read_from FieldStart rest).
      cbn [read_from]. rewrite decide_False by done. by rewrite IH.
Qed.

(** Whatever a field holds, the reader gets it back from what the writer
    puts on the stream for it. *)
Lemma read_csv_field (field rest : string) :
  read_from FieldStart (csv_field tsv_writer field +:+ String tab rest)
  = field :: read_from FieldStart rest.
Proof.
  unfold csv_field.
  destruct (existsb (special tsv_writer) (list_ascii_of_string field)) eqn:Hsp.
  - change (quotechar tsv_writer) with double_quote.
    rewrite string_of_list_ascii_app.
    change (String double_quote ?s +:+ ?t) with (String double_quote (s +:+ t)).
    rewrite string_app_assoc.
    change (string_of_list_ascii [double_quote] +:+ String tab rest)
      with (String double_quote (String tab rest)).
    cbn [read_from]. rewrite decide_True by done.
    rewrite read_quoted_piece. by rewrite string_of_list_ascii_of_string.
  - rewrite <- (string_of_list_ascii_of_string field) at 1 2.
    rewrite read_unquoted_field by by apply not_special_chars.
    by rewrite string_of_list_ascii_of_string.
Qed.

Lemma read_fields_rows (tally_result : dict string Z) :
  read_fields (stdout ((λ kv, WriteRow [kv.1; str_int kv.2]) <$> tally_result))
  = fields_of tally_result ++ [EmptyString].
Proof.
  unfold read_fields. rewrite stdout_name_count_rows.
  induction tally_result as [|kv d IH]; [done|].
  cbn [foldr]. rewrite !string_app_assoc.
  repeat change (String tab EmptyString +:+ ?s) with (String tab s) in *.
  rewrite !read_csv_field. by rewrite IH.
Qed.

Lemma stdout_plain_rows (tally_result : dict string Z) :
  Forall (λ kv, plain kv.1) tally_result →
  stdout ((λ kv, WriteRow [kv.1; str_int kv.2]) <$> tally_result)
  = foldr (λ kv out, kv.1 +:+ String tab (str_int kv.2 +:+ String tab out))
          EmptyString tally_result.
Proof.
  rewrite stdout_name_count_rows.
  induction 1 as [|kv d Hname _ IH]; [done|].
  cbn [foldr]. rewrite (csv_field_plain kv.1 Hname).
  rewrite (csv_field_plain (str_int kv.2) (str_int_plain kv.2)).
  rewrite !string_app_assoc.
  repeat change (String tab EmptyString +:+ ?s) with (String tab s) in *.
  by rewrite IH.
Qed.

(** The reader on a stream with a quoted field: a name with a tab and a
    double quote in it comes back as it was. *)
Example read_fields_quoted :
  read_fields (stdout (write_rows
    [(String "a" (String tab (String double_quote "b")), 7); ("B", 0)]).1)
  = [String "a" (String tab (String double_quote "b")); "7"; "B"; "0"; EmptyString].
Proof. vm_compute. reflexivity. Qed.

(** C9: the output step serializes a tally result as rows of name and
    count: it writes one row per entry, in the iteration order of the
    result, and what reaches the stream reads back as the name and the
    decimal count of every entry in that order, each field ended by a tab.
    When no name needs quoting the stream is name, tab, count, tab, entry
    after entry.  On the result of the engine there is one row per entry
    of the shape set, in the key order of the shape set. *)
Theorem write_rows_tab_separated (tally_result : dict string Z) :
  wf tally_result →
  write_rows tally_result
  = ((λ kv, WriteRow [kv.1; str_int kv.2]) <$> tally_result, Ok ())
  ∧ rows_written (write_rows tally_result).1
    = (λ kv, [kv.1; str_int kv.2]) <$> tally_result
  ∧ read_fields (stdout (write_rows tally_result).1)
    = fields_of tally_result ++ [EmptyString]
  ∧ (Forall (λ kv, plain kv.1) tally_result →
     stdout (write_rows tally_result).1
     = foldr (λ kv out, kv.1 +:+ String tab (str_int kv.2 +:+ String tab out))
             EmptyString tally_result)
  ∧ ∀ polys points, wf polys → tally_result = tally polys points →
      length (rows_written (write_rows tally_result).1) = length polys
      ∧ head <$> rows_written (write_rows tally_result).1 = Some <$> keys polys.
Proof.
  intros Hwf. rewrite write_rows_events by done. cbn [fst]. split_and!.
  - done.
  - apply (rows_written_fmap (λ kv, [kv.1; str_int kv.2])).
  - apply read_fields_rows.
  - apply stdout_plain_rows.
  - intros polys points Hpolys ->.
    rewrite (rows_written_fmap (λ kv, [kv.1; str_int kv.2])). unfold tally.
    rewrite tally_points_map by done. split.
    + by rewrite !length_fmap.
    + unfold keys. rewrite <- !list_fmap_compose. by apply list_fmap_ext.
Qed.

End output_properties.


(** ** A run from the inputs to the rows *)

Section end_to_end.
Import PyDict Engine Geometry Program.

Lemma of_items_NoDup {K V : Type} `{EqDecision K} (l : list (K * V)) :
  NoDup l.*1 → of_items l = l.
Proof.
  induction l as [|[k v] l IH] using rev_ind; [done|].
  rewrite fmap_app. intros (Hl & Hk & _)%NoDup_app.
  unfold of_items. rewrite update_snoc. fold (of_items l).
  rewrite IH by done. apply keys_setitem_fresh.
  intros Hin. apply (Hk k Hin). simpl. apply list_elem_of_here.
Qed.

Lemma count_points_of_rows (poly : Polygon) (rows : list (Q * Q)) :
  count_points within poly (points_of_rows rows)
  = Z.of_nat (length (filter (λ row, within (mkPoint row.2 row.1) poly = true) rows)).
Proof.
  rewrite count_points_filter. f_equal. unfold points_of_rows.
  induction rows as [|row rows IH]; [done|].
  rewrite fmap_cons, !filter_cons. simpl.
  destruct (within (mkPoint row.2 row.1) poly);
    [rewrite !decide_True by done|rewrite !decide_False by done]; simpl;
    by rewrite IH.
Qed.

(** X17: from the inputs to the rows: on a shape file of usable features
    with distinct ids and a table on the standard input, a run writes one
    row per feature, in the order of the file; the row holds the id and the
    number of rows (lat, lon) of the table whose point (lon, lat) is within
    the polygon of the first ring of the feature. *)
Theorem main_rows_of_inputs
    (w : World) (features : list Feature) (rows : list (Q * Q)) :
  shape_files w shapes_path = Some features →
  Forall usable features →
  NoDup (properties_id <$> features) →
  stdin_isatty w = false →
  stdin_rows w = Some rows →
  rows_written (main w).1
  = (λ i, [properties_id i;
           str_int (Z.of_nat (length
             (filter (λ row, within (mkPoint row.2 row.1)
                                    (mkPolygon (first_ring i)) = true) rows)))])
    <$> features.
Proof.
  intros Hfile Hok Hids Htty Hrows.
  assert (Hitems : ((λ i, (properties_id i, mkPolygon (first_ring i))) <$> features).*1
                   = properties_id <$> features).
  { rewrite <- list_fmap_compose. by apply list_fmap_ext. }
  assert (Hload : load_polygons w shapes_path
                  = Some ((λ i, (properties_id i, mkPolygon (first_ring i))) <$> features)).
  { unfold load_polygons. rewrite Hfile. simpl.
    rewrite (mapM_feature_item_usable features Hok). simpl.
    by rewrite of_items_NoDup by by rewrite Hitems. }
  rewrite (main_success w _ rows Hload Htty Hrows). cbn [fst].
  change (rows_written (CallTally :: ?t)) with (rows_written t).
  rewrite (rows_written_fmap (λ kv, [kv.1; str_int kv.2])).
  unfold tally. rewrite tally_points_map by (unfold wf, keys; by rewrite Hitems).
  rewrite <- !list_fmap_compose. apply list_fmap_ext. intros n i _. simpl.
  by rewrite count_points_of_rows.
Qed.

End end_to_end.


(** ** Instances of the further properties *)

Section further_instances.
Import PyDict Engine Geometry Program.

(** A shape file in which two features share the id A. *)
Definition world_shared_id : World :=
  mkWorld
    (λ path, if decide (path = shapes_path)
             then Some [mkFeature "A" [[vx 0 0; vx 0 1; vx 1 1; vx 1 0]];
                        mkFeature "B" [[vx 1 0; vx 1 1; vx 2 1; vx 2 0]];
                        mkFeature "A" [[vx 0 0; vx 0 2; vx 2 2; vx 2 0];
                                       [vx 1 1; vx 1 2; vx 2 2]]]
             else None)
    false
    (Some [(1, 1)]%Q).

(** A shape file in which the second feature has no ring. *)
Definition world_empty_feature : World :=
  mkWorld
    (λ path, if decide (path = shapes_path)
             then Some [mkFeature "A" [[vx 0 0; vx 0 1; vx 1 1; vx 1 0]];
                        mkFeature "B" []]
             else None)
    false
    (Some [(1, 1)]%Q).

Ltac usable_features :=
  repeat (apply Forall_cons; split;
          [eexists _, _; split; [reflexivity|simpl; lia]|]);
  apply Forall_nil_2.

Lemma tally_points_app_witness :
  wf overlapping_shapes
  ∧ tally_points within overlapping_shapes ([mkPoint (3 # 2) (1 # 2)] ++ [pt 0 0])
    = zip_with (λ a b, (a.1, a.2 + b.2))
        (tally_points within overlapping_shapes [mkPoint (3 # 2) (1 # 2)])
        (tally_points within overlapping_shapes [pt 0 0]).
Proof.
  assert (Hwf : wf overlapping_shapes) by (unfold wf; compute_done).
  split; [exact Hwf|].
  exact (tally_points_app within overlapping_shapes _ _ Hwf).
Defined.

Lemma total_counts_containments_witness :
  wf overlapping_shapes
  ∧ total (tally_points within overlapping_shapes [mkPoint (3 # 2) (1 # 2); pt 5 5])
    = containments within overlapping_shapes [mkPoint (3 # 2) (1 # 2); pt 5 5].
Proof.
  assert (Hwf : wf overlapping_shapes) by (unfold wf; compute_done).
  split; [exact Hwf|].
  exact (proj1 (total_counts_containments within overlapping_shapes _ Hwf)).
Defined.

Lemma total_counts_partition_witness :
  wf disjoint_shapes
  ∧ (∀ p, p ∈ [mkPoint (1 # 2) (1 # 2); pt 5 5] →
       (containing within p disjoint_shapes ≤ 1)%nat)
  ∧ total (tally_points within disjoint_shapes [mkPoint (1 # 2) (1 # 2); pt 5 5])
    ≤ 2.
Proof.
  assert (Hwf : wf disjoint_shapes) by (unfold wf; compute_done).
  assert (Hone : ∀ p, p ∈ [mkPoint (1 # 2) (1 # 2); pt 5 5] →
                   (containing within p disjoint_shapes ≤ 1)%nat).
  { intros p Hp. repeat (apply elem_of_cons in Hp as [->|Hp]);
      [vm_compute; lia|vm_compute; lia|by apply elem_of_nil in Hp]. }
  split_and!; [exact Hwf|exact Hone|].
  exact (proj1 (total_counts_partition within disjoint_shapes _ Hwf) Hone).
Defined.

Lemma tally_points_shapes_app_witness :
  wf ([("A", rectangle 0 0 1 1)] ++ [("B", rectangle 1 0 2 1)])
  ∧ tally_points within ([("A", rectangle 0 0 1 1)] ++ [("B", rectangle 1 0 2 1)])
      [mkPoint (1 # 2) (1 # 2)]
    = tally_points within [("A", rectangle 0 0 1 1)] [mkPoint (1 # 2) (1 # 2)]
      ++ tally_points within [("B", rectangle 1 0 2 1)] [mkPoint (1 # 2) (1 # 2)].
Proof.
  assert (Hwf : wf ([("A", rectangle 0 0 1 1)] ++ [("B", rectangle 1 0 2 1)]))
    by (unfold wf; compute_done).
  split; [exact Hwf|].
  exact (tally_points_shapes_app within _ _ _ Hwf).
Defined.

Lemma tally_points_irrelevant_point_witness :
  (∀ item, item ∈ square_shapes → within (pt 3 3) item.2 = false)
  ∧ tally_points within square_shapes ([pt 1 1] ++ pt 3 3 :: [pt 0 1])
    = tally_points within square_shapes ([pt 1 1] ++ [pt 0 1]).
Proof.
  assert (Hout : ∀ item, item ∈ square_shapes → within (pt 3 3) item.2 = false).
  { intros item Hin. apply list_elem_of_singleton in Hin as ->.
    vm_compute. reflexivity. }
  split; [exact Hout|].
  exact (tally_points_irrelevant_point within square_shapes _ _ _ Hout).
Defined.

Lemma tally_points_replicate_witness :
  wf square_shapes
  ∧ tally_points within square_shapes (replicate 3 (pt 1 1)) = [("square", 3)].
Proof.
  assert (Hwf : wf square_shapes) by (unfold wf; compute_done).
  split; [exact Hwf|].
  exact (tally_points_replicate within square_shapes 3 (pt 1 1) Hwf).
Defined.

Lemma get_shapes_usable_features_witness :
  shape_files world_shared_id shapes_path
  = Some [mkFeature "A" [[vx 0 0; vx 0 1; vx 1 1; vx 1 0]];
          mkFeature "B" [[vx 1 0; vx 1 1; vx 2 1; vx 2 0]];
          mkFeature "A" [[vx 0 0; vx 0 2; vx 2 2; vx 2 0];
                         [vx 1 1; vx 1 2; vx 2 2]]]
  ∧ get_shapes world_shared_id shapes_path
    = ([], Ok ([("A", square); ("B", rectangle 1 0 2 1)], 1)).
Proof.
  split; [reflexivity|].
  refine (get_shapes_usable_features world_shared_id shapes_path _ eq_refl _).
  usable_features.
Defined.

Lemma get_shapes_all_or_nothing_witness :
  (shape_files world_empty_feature shapes_path = None
   ∨ ∃ features i, shape_files world_empty_feature shapes_path = Some features
       ∧ i ∈ features ∧ geometry_coordinates i = [])
  ∧ get_shapes world_empty_feature shapes_path
    = ([Print "I/O error: no shape data acquired."], Ok ([], -1)).
Proof.
  assert (Hbad : shape_files world_empty_feature shapes_path = None
                 ∨ ∃ features i,
                     shape_files world_empty_feature shapes_path = Some features
                     ∧ i ∈ features ∧ geometry_coordinates i = []).
  { right. eexists _, (mkFeature "B" []). split_and!; [reflexivity| |reflexivity].
    apply list_elem_of_further, list_elem_of_here. }
  split; [exact Hbad|].
  exact (get_shapes_all_or_nothing world_empty_feature shapes_path Hbad).
Defined.

Lemma get_shapes_duplicate_ids_witness :
  ∃ polys, (get_shapes world_shared_id shapes_path).2 = Ok (polys, 1)
    ∧ wf polys
    ∧ keys polys = ["A"; "B"].
Proof.
  destruct (get_shapes_duplicate_ids world_shared_id shapes_path _ eq_refl)
    as (polys & Hret & Hwf & Hkeys & _); [usable_features|].
  exists polys. split_and!; [exact Hret|exact Hwf|exact Hkeys].
Defined.

Lemma get_points_swaps_columns_witness :
  stdin_isatty world_square = false
  ∧ ∃ points, get_points world_square = ([], Ok (PyList points, 1))
      ∧ length points = 4%nat.
Proof.
  split; [reflexivity|].
  destruct (get_points_swaps_columns world_square _ eq_refl eq_refl)
    as (points & Hret & Hlen & _).
  exists points. split; [exact Hret|exact Hlen].
Defined.

Lemma main_success_run_witness :
  (get_shapes world_square shapes_path).2
  = Ok ([("square", mkPolygon [vx 0 0; vx 0 2; vx 2 2; vx 2 0; vx 0 0])], 1)
  ∧ (get_points world_square).2 = Ok (PyList square_points, 1)
  ∧ ∃ pts, PyList square_points = PyList pts
      ∧ (main world_square).1
        = CallTally :: ((λ kv, WriteRow [kv.1; str_int kv.2])
            <$> tally [("square", mkPolygon [vx 0 0; vx 0 2; vx 2 2; vx 2 0; vx 0 0])] pts).
Proof.
  split_and!; [reflexivity|reflexivity|].
  destruct (main_success_run world_square _ _ eq_refl eq_refl)
    as (pts & Hpts & Htrace & _).
  exists pts. split; [exact Hpts|exact Htrace].
Defined.

Lemma main_failure_stdout_witness :
  (get_shapes world_no_shapes shapes_path).2 = Ok ([], -1)
  ∧ (get_points world_no_shapes).2 = Ok (PyList [mkPoint 1 1], 1)
  ∧ ((-1 : Z) ≠ 1 ∨ (1 : Z) ≠ 1)
  ∧ String.prefix "I/O error: " (stdout (main world_no_shapes).1) = true.
Proof.
  assert (Hflag : (-1 : Z) ≠ 1 ∨ (1 : Z) ≠ 1) by (left; lia).
  split_and!; [reflexivity|reflexivity|exact Hflag|].
  exact (proj1 (main_failure_stdout world_no_shapes
                  [] (-1) (PyList [mkPoint 1 1]) 1 eq_refl eq_refl Hflag)).
Defined.

Lemma write_rows_split_on_tab_witness :
  wf [("A", 2); ("B", 0)]
  ∧ Forall (λ kv : string * Z, plain kv.1) [("A", 2); ("B", 0)]
  ∧ split_on tab (stdout (write_rows [("A", 2); ("B", 0)]).1)
    = ["A"; "2"; "B"; "0"; EmptyString].
Proof.
  assert (Hwf : wf [("A", 2); ("B", 0)]) by (unfold wf; compute_done).
  assert (Hplain : Forall (λ kv : string * Z, plain kv.1) [("A", 2); ("B", 0)]).
  { repeat (apply Forall_cons; split; [by repeat constructor|]).
    apply Forall_nil_2. }
  split_and!; [exact Hwf|exact Hplain|].
  exact (write_rows_split_on_tab [("A", 2); ("B", 0)] Hwf Hplain).
Defined.

Lemma write_rows_tab_separated_witness :
  wf [("A", 2); ("B", 0)]
  ∧ Forall (λ kv : string * Z, plain kv.1) [("A", 2); ("B", 0)]
  ∧ stdout (write_rows [("A", 2); ("B", 0)]).1
    = "A" +:+ String tab ("2" +:+ String tab ("B" +:+ String tab ("0"
        +:+ String tab EmptyString)))
  ∧ read_fields (stdout (write_rows [("A", 2); ("B", 0)]).1)
    = ["A"; "2"; "B"; "0"; EmptyString].
Proof.
  assert (Hwf : wf [("A", 2); ("B", 0)]) by (unfold wf; compute_done).
  assert (Hplain : Forall (λ kv : string * Z, plain kv.1) [("A", 2); ("B", 0)]).
  { repeat (apply Forall_cons; split; [by repeat constructor|]).
    apply Forall_nil_2. }
  split_and!; [exact Hwf|exact Hplain| |].
  - exact (proj1 (proj2 (proj2 (proj2
             (write_rows_tab_separated [("A", 2); ("B", 0)] Hwf)))) Hplain).
  - exact (proj1 (proj2 (proj2
             (write_rows_tab_separated [("A", 2); ("B", 0)] Hwf)))).
Defined.

Lemma main_rows_of_inputs_witness :
  NoDup (properties_id
         <$> [mkFeature "square" [[vx 0 0; vx 0 2; vx 2 2; vx 2 0; vx 0 0]]])
  ∧ stdin_rows world_square = Some [(1, 1); (3, 3); (1, 0); (0, 0)]%Q
  ∧ rows_written (main world_square).1 = [["square"; "1"]].
Proof.
  assert (Hids : NoDup (properties_id
            <$> [mkFeature "square" [[vx 0 0; vx 0 2; vx 2 2; vx 2 0; vx 0 0]]]))
    by compute_done.
  split_and!; [exact Hids|reflexivity|].
  refine (main_rows_of_inputs world_square _ _ eq_refl _ Hids eq_refl eq_refl).
  usable_features.
Defined.

End further_instances.
